(** * python-nbp: the publication module (nbp/publication.py)

    A shallow embedding of the URL builder, the backward generator of
    publication URLs, the publication-number calculator, the download and
    cache orchestration and the table resolver, together with the
    properties stated about them.

    Python integers are [Z]; Python strings are [string]; an optional
    argument ([None] or a value) is an [option]; a raised exception is the
    [Raise] outcome of a computation. *)

From Stdlib Require Import ZArith String Ascii List Bool Lia DecimalString Sorted.
From Stdlib Require Import DecimalFacts DecimalPos DecimalN DecimalZ.
From stdpp Require Import base gmap strings list.
Import ListNotations.

Local Open Scope string_scope.
Local Open Scope Z_scope.

(** ** Exceptions and outcomes *)

(** The exception classes that the module can meet.  [URLError] stands for
    urllib2.URLError and its subclasses (HTTPError among them);
    [OtherError] is any exception that is not an instance of the classes
    named here. *)
Inductive exn : Type :=
  | AssertionError
  | ValueError
  | OverflowError
  | KeyError
  | URLError
  | ParseFailure (msg : string)
  | OtherError (name : string).

Inductive outcome (A : Type) : Type :=
  | Return (a : A)
  | Raise (e : exn).

Arguments Return {A} a.
Arguments Raise {A} e.

(** ** Python string primitives used by the module *)

(** [str(n)] for an integer. *)
Definition str_int (n : Z) : string := NilZero.string_of_int (Z.to_int n).

Fixpoint str_drop (k : nat) (s : string) : string :=
  match k, s with
  | O, _ => s
  | S _, EmptyString => EmptyString
  | S k', String _ s' => str_drop k' s'
  end.

(** [s[2:]] *)
Definition slice_from_2 (s : string) : string := str_drop 2 s.

Fixpoint str_repeat (c : ascii) (k : nat) : string :=
  match k with
  | O => EmptyString
  | S k' => String c (str_repeat c k')
  end.

(** [s.rjust(width, fill)]: [s] itself when it is already [width] long or
    longer, padded on the left otherwise. *)
Definition rjust (width : nat) (fill : ascii) (s : string) : string :=
  str_repeat fill (width - String.length s)%nat ++ s.

Definition starts_with_slash (s : string) : bool :=
  match s with
  | String c _ => Ascii.eqb c "/"
  | EmptyString => false
  end.

Fixpoint str_last (s : string) : option ascii :=
  match s with
  | EmptyString => None
  | String c EmptyString => Some c
  | String _ s' => str_last s'
  end.

Definition ends_with_slash (s : string) : bool :=
  match str_last s with
  | Some c => Ascii.eqb c "/"
  | None => false
  end.

(** [os.path.join(a, b)] of posixpath, for two components. *)
Definition os_path_join (a b : string) : string :=
  if starts_with_slash b then b
  else if String.eqb a "" || ends_with_slash a then a ++ b
  else a ++ "/" ++ b.

(** [s.endswith(suffix)] *)
Fixpoint endswith (s suffix : string) : bool :=
  String.eqb s suffix ||
  match s with
  | EmptyString => false
  | String _ s' => endswith s' suffix
  end.

(** Truth value of an optional string in a condition: [None] and the empty
    string are false. *)
Definition truthy (o : option string) : bool :=
  match o with
  | None => false
  | Some s => negb (String.eqb s "")
  end.

(** ** Module constants *)

Definition A : string := "a".
Definition B : string := "b".
Definition TABLE_TYPES : list string := [A; B].

Definition NBP_CURRENCY_TABLE_URL_PREFIX : string := "http://rss.nbp.pl/kursy/xml2/".

(** ['%s/%s/%s%s%s.xml' % (year, table_type, short_year, table_type, pub_number)] *)
Definition NBP_CURRENCY_TABLE_URL_PATTERN
    (year : Z) (table_type short_year table_type' pub_number : string) : string :=
  str_int year ++ "/" ++ table_type ++ "/" ++
  short_year ++ table_type' ++ pub_number ++ ".xml".

(** ** URL building *)

(** A resource location: the url and the optional cache file path. *)
Definition location : Type := string * option string.

(** The zero-padded publication number field. *)
Definition pub_field (pub_number : Z) : string :=
  rjust 3 "0" (str_int pub_number).

(** The path below the prefix, shared by the url and the cache file. *)
Definition url_path (year pub_number : Z) (table_type : string) : string :=
  let short_year := slice_from_2 (str_int year) in
  let pub_number := pub_field pub_number in
  NBP_CURRENCY_TABLE_URL_PATTERN year table_type short_year table_type pub_number.

Definition build_url (year pub_number : Z) (table_type : string)
    (cache_dir : option string) : location :=
  let prefix := NBP_CURRENCY_TABLE_URL_PREFIX in
  let path := url_path year pub_number table_type in
  let url := prefix ++ path in
  let cache_file_path :=
    match cache_dir with
    | Some d => if truthy cache_dir then Some (os_path_join d path) else None
    | None => None
    end in
  (url, cache_file_path).

(** ** Calendar dates (datetime.date) *)

Record date : Type := Date { dt_year : Z; dt_month : Z; dt_day : Z }.

Definition MINYEAR : Z := 1.
Definition MAXYEAR : Z := 9999.

Definition is_leap (y : Z) : bool :=
  (y mod 4 =? 0) && (negb (y mod 100 =? 0) || (y mod 400 =? 0)).

Definition days_in_month (y m : Z) : Z :=
  if m =? 2 then (if is_leap y then 29 else 28)
  else if (m =? 4) || (m =? 6) || (m =? 9) || (m =? 11) then 30
  else 31.

(** [date(y, m, d)]: ValueError outside the calendar. *)
Definition mk_date (y m d : Z) : outcome date :=
  if (MINYEAR <=? y) && (y <=? MAXYEAR) && (1 <=? m) && (m <=? 12) &&
     (1 <=? d) && (d <=? days_in_month y m)
  then Return (Date y m d)
  else Raise ValueError.

(** [d - timedelta(days=1)]: OverflowError before the first day of year 1. *)
Definition minus_one_day (d : date) : outcome date :=
  if 1 <? dt_day d then Return (Date (dt_year d) (dt_month d) (dt_day d - 1))
  else if 1 <? dt_month d then
    Return (Date (dt_year d) (dt_month d - 1)
                 (days_in_month (dt_year d) (dt_month d - 1)))
  else if MINYEAR <? dt_year d then Return (Date (dt_year d - 1) 12 31)
  else Raise OverflowError.

(** [d1 > d2] on dates. *)
Definition date_gt (d1 d2 : date) : bool :=
  (dt_year d2 <? dt_year d1) ||
  ((dt_year d1 =? dt_year d2) &&
   ((dt_month d2 <? dt_month d1) ||
    ((dt_month d1 =? dt_month d2) && (dt_day d2 <? dt_day d1)))).

Definition date_le (d1 d2 : date) : Prop :=
  dt_year d1 < dt_year d2 \/
  (dt_year d1 = dt_year d2 /\
   (dt_month d1 < dt_month d2 \/
    (dt_month d1 = dt_month d2 /\ dt_day d1 <= dt_day d2))).

(** ** Lower-casing of a table type *)

Definition ascii_lower (c : ascii) : ascii :=
  let n := nat_of_ascii c in
  if (Nat.leb 65 n && Nat.leb n 90)%bool then ascii_of_nat (n + 32)%nat else c.

Fixpoint lower (s : string) : string :=
  match s with
  | EmptyString => EmptyString
  | String c s' => String (ascii_lower c) (lower s')
  end.

(** [x in l] on a list of strings. *)
Definition str_in (x : string) (l : list string) : bool :=
  existsb (String.eqb x) l.

(** ** Lazy sequences

    A generator is pure here, so the whole of what it would yield is a
    finite trace: the consumer walks it from the head, and meets the
    exception, if any, only when it asks for the element after the last
    one yielded. *)
Inductive gen (T : Type) : Type :=
  | GStop
  | GRaise (e : exn)
  | GYield (x : T) (rest : gen T).

Arguments GStop {T}.
Arguments GRaise {T} e.
Arguments GYield {T} x rest.

Fixpoint gen_items {T} (g : gen T) : list T :=
  match g with
  | GYield x rest => x :: gen_items rest
  | _ => []
  end.

Fixpoint gen_raises {T} (g : gen T) : option exn :=
  match g with
  | GStop => None
  | GRaise e => Some e
  | GYield _ rest => gen_raises rest
  end.

Fixpoint gen_map {T U} (f : T -> U) (g : gen T) : gen U :=
  match g with
  | GStop => GStop
  | GRaise e => GRaise e
  | GYield x rest => GYield (f x) (gen_map f rest)
  end.

Definition gen_head {T} (g : gen T) : option T :=
  match g with
  | GYield x _ => Some x
  | _ => None
  end.

(** ** Publication numbers and the backward generator *)

Section Publication.

(** The two day counters of the dateutils module, which the calculator
    dispatches to. *)
Variable count_working_days : date -> Z.
Variable count_wednesdays : date -> Z.

(** The dictionary from table type to day counter. *)
Definition TABLE_TYPES_DAY_COUNTER (key : string) : option (date -> Z) :=
  if String.eqb key A then Some count_working_days
  else if String.eqb key B then Some count_wednesdays
  else None.

Definition calculate_number (d : date) (table_type : string) : outcome Z :=
  if negb (str_in table_type TABLE_TYPES) then Raise AssertionError
  else
    match TABLE_TYPES_DAY_COUNTER (lower table_type) with
    | Some func => Return (func d)
    | None => Raise KeyError
    end.

(** [date(year, 1, 1) - timedelta(days=1)] *)
Definition previous_year_date (year : Z) : outcome date :=
  match mk_date year 1 1 with
  | Return d => minus_one_day d
  | Raise e => Raise e
  end.

(** The head of one iteration of the loop of [gen_urls]: at publication
    number 0 the year and the number are replaced by those of the last day
    of the previous year, otherwise they are kept. *)
Definition beginning_of_year (year pub_number : Z) (table_type : string)
    : outcome (Z * Z) :=
  if pub_number =? 0 then
    match previous_year_date year with
    | Raise e => Raise e
    | Return prev =>
        match calculate_number prev table_type with
        | Raise e => Raise e
        | Return n => Return (dt_year prev, n)
        end
    end
  else Return (year, pub_number).

(** The loop of [gen_urls]; [budget] is what remains of [gen_number]. *)
Fixpoint gen_urls_loop (budget : nat) (year pub_number : Z)
    (table_type : string) (cache_dir : option string) : gen location :=
  match budget with
  | O => GStop
  | S budget' =>
      match beginning_of_year year pub_number table_type with
      | Raise e => GRaise e
      | Return (year, pub_number) =>
          GYield (build_url year pub_number table_type cache_dir)
                 (gen_urls_loop budget' year (pub_number - 1) table_type cache_dir)
      end
  end.

Definition gen_urls (year pub_number : Z) (table_type : string)
    (gen_number : Z) (cache_dir : option string) : gen location :=
  gen_urls_loop (Z.to_nat gen_number) year pub_number table_type cache_dir.

(** The same generator one [next()] at a time: the state is what the
    frame of [gen_urls] holds between two yields, and [gen_number] is the
    integer that the loop counts down. *)
Record gen_state : Type := GenState {
  gs_year : Z;
  gs_pub_number : Z;
  gs_gen_number : Z
}.

Inductive gen_step : Type :=
  | Stopped
  | Raised (e : exn)
  | Yielded (loc : location) (next : gen_state).

Definition gen_next (table_type : string) (cache_dir : option string)
    (st : gen_state) : gen_step :=
  if 0 <? gs_gen_number st then
    match beginning_of_year (gs_year st) (gs_pub_number st) table_type with
    | Raise e => Raised e
    | Return (year, pub_number) =>
        Yielded (build_url year pub_number table_type cache_dir)
                (GenState year (pub_number - 1) (gs_gen_number st - 1))
    end
  else Stopped.

(** All of what the generator gives from a state, if [fuel] calls of
    [next()] are enough to see its end. *)
Fixpoint gen_unfold (fuel : nat) (table_type : string) (cache_dir : option string)
    (st : gen_state) : option (gen location) :=
  match fuel with
  | O => None
  | S fuel' =>
      match gen_next table_type cache_dir st with
      | Stopped => Some GStop
      | Raised e => Some (GRaise e)
      | Yielded loc st' =>
          match gen_unfold fuel' table_type cache_dir st' with
          | Some g => Some (GYield loc g)
          | None => None
          end
      end
  end.

(** The coordinates at which [gen_urls] calls [build_url]. *)
Fixpoint gen_coords (budget : nat) (year pub_number : Z) (table_type : string)
    : gen (Z * Z) :=
  match budget with
  | O => GStop
  | S budget' =>
      match beginning_of_year year pub_number table_type with
      | Raise e => GRaise e
      | Return (year, pub_number) =>
          GYield (year, pub_number)
                 (gen_coords budget' year (pub_number - 1) table_type)
      end
  end.

End Publication.

(** ** The world: file system, network history, handles *)

(** An open file-like object: a response of the network or a file of the
    cache, with what can be read from it. *)
Record handle : Type := Handle { h_id : nat; h_content : string }.

Record world : Type := World {
  dirs : gset string;             (* directories that exist *)
  files : gmap string string;     (* files that exist, with their content *)
  requests : list string;         (* urls given to urlopen, latest first *)
  issued : nat;                   (* number of handles opened so far *)
  closed : list nat;              (* handles closed, latest first *)
  fetched : list location         (* calls of fetch_data, latest first *)
}.

(** A computation that reads and changes the world and may raise; what it
    did before raising stays done. *)
Definition M (T : Type) : Type := world -> outcome T * world.

Definition ret {T} (x : T) : M T := fun w => (Return x, w).
Definition raise {T} (e : exn) : M T := fun w => (Raise e, w).
Definition bind {T U} (c : M T) (k : T -> M U) : M U :=
  fun w =>
    match c w with
    | (Return x, w') => k x w'
    | (Raise e, w') => (Raise e, w')
    end.
Definition lift {T} (o : outcome T) : M T := fun w => (o, w).

Declare Scope m_scope.
Delimit Scope m_scope with m.
Notation "'let!' x ':=' c 'in' k" := (bind c (fun x => k))
  (at level 10, x name, c at level 100, k at level 200) : m_scope.
Local Open Scope m_scope.

(** What [urllib2.urlopen] can do: give a response (whose [getcode] may be
    missing or give no status) or raise. *)
Record response : Type := Response { getcode : option Z; body : string }.

Inductive urlopen_result : Type :=
  | Opened (resp : response)
  | Failed (e : exn).

(** ** The cache (nbp/caching.py) *)

Fixpoint has_slash (s : string) : bool :=
  match s with
  | EmptyString => false
  | String c s' => Ascii.eqb c "/" || has_slash s'
  end.

(** Modelled from the spec: the directory of a cache file, the part of the
    path before its last separator (nbp/caching.py, which [fetch_data]
    calls, is not embedded from source). *)
Fixpoint cache_dirname (path : string) : string :=
  match path with
  | EmptyString => EmptyString
  | String c s' => if has_slash s' then String c (cache_dirname s') else EmptyString
  end.

(** Modelled from the spec: [caching.get_cache(path)], the cache object of
    one cache file path. *)
Definition get_cache (cache_file_path : string) : string := cache_file_path.

(** Modelled from the spec: [directoryExists(path) -> bool]. *)
Definition dir_exists (cache : string) : M bool :=
  fun w => (Return (bool_decide (cache_dirname cache ∈ dirs w)), w).

(** Modelled from the spec: [createDirectory(path)]. *)
Definition create_dir (cache : string) : M unit :=
  fun w => (Return tt,
            World ({[cache_dirname cache]} ∪ dirs w) (files w) (requests w)
                  (issued w) (closed w) (fetched w)).

(** Modelled from the spec: [fileExists(path) -> bool]. *)
Definition file_exists (cache : string) : M bool :=
  fun w => (Return (bool_decide (is_Some (files w !! cache))), w).

(** Modelled from the spec: [save(path, content)]. *)
Definition save (cache : string) (data : handle) : M unit :=
  fun w => (Return tt,
            World (dirs w) (<[cache := h_content data]> (files w)) (requests w)
                  (issued w) (closed w) (fetched w)).

(** Modelled from the spec: [open(path) -> content-handle]. *)
Definition open (cache : string) : M handle :=
  fun w =>
    match files w !! cache with
    | Some content =>
        (Return (Handle (issued w) content),
         World (dirs w) (files w) (requests w) (S (issued w)) (closed w) (fetched w))
    | None => (Raise (OtherError "IOError"), w)
    end.

(** The world after [data.close()]. *)
Definition after_close (h : handle) (w : world) : world :=
  World (dirs w) (files w) (requests w) (issued w) (h_id h :: closed w) (fetched w).

(** [data.close()] *)
Definition close (data : handle) : M unit :=
  fun w => (Return tt, after_close data w).

Definition note_fetch (loc : location) : M unit :=
  fun w => (Return tt,
            World (dirs w) (files w) (requests w) (issued w) (closed w)
                  (loc :: fetched w)).

(** The directories after the cache directory of [path] has been seen to. *)
Definition with_cache_dir (path : string) (w : world) : gset string :=
  if bool_decide (cache_dirname path ∈ dirs w) then dirs w
  else {[cache_dirname path]} ∪ dirs w.

(** ** Tables (nbp/models.py) *)

Record Table (rates : Type) : Type := mkTable {
  no : string;
  publication_date : date;
  url : option string;
  table_rates : rates
}.

Arguments mkTable {rates} no publication_date url table_rates.
Arguments no {rates} t.
Arguments publication_date {rates} t.
Arguments url {rates} t.
Arguments table_rates {rates} t.

(** ** Download, fetch, parse and resolve *)

Section Resolver.

Variable count_working_days : date -> Z.
Variable count_wednesdays : date -> Z.

(** The network: what [urlopen] does for a url, given the requests made
    before. *)
Variable urlopen : list string -> string -> urlopen_result.

(** The reading of the XML document: the table number, the publication
    date and the currency entries, or the exception of a malformed
    document. *)
Variable rates : Type.
Variable read_document : string -> outcome (string * date * rates).

Definition download (url : string) : M (option handle) :=
  fun w =>
    let w1 := World (dirs w) (files w) (url :: requests w)
                    (issued w) (closed w) (fetched w) in
    match urlopen (requests w) url with
    | Opened resp =>
        let w2 := World (dirs w) (files w) (url :: requests w)
                        (S (issued w)) (closed w) (fetched w) in
        match getcode resp with
        | Some code =>
            if code =? 200 then (Return (Some (Handle (issued w) (body resp))), w2)
            else (Return None, w2)
        | None => (Return None, w2)
        end
    | Failed URLError => (Return None, w1)
    | Failed e => (Raise e, w1)
    end.

Definition fetch_data (url : string) (cache_file_path : option string)
    : M (option handle) :=
  let! _ := note_fetch (url, cache_file_path) in
  match cache_file_path with
  | Some path =>
      if truthy cache_file_path then
        let cache := get_cache path in
        let! is_dir := dir_exists cache in
        let! _ := (if negb is_dir then create_dir cache else ret tt) in
        let! is_file := file_exists cache in
        let! _ :=
          (if negb is_file then
             let! data := download url in
             match data with
             | Some d => save cache d
             | None => ret tt
             end
           else ret tt) in
        let! is_file := file_exists cache in
        if is_file then (let! h := open cache in ret (Some h)) else ret None
      else download url
  | None => download url
  end.

Definition parse (file_ : handle) (url : option string) : outcome (Table rates) :=
  match read_document (h_content file_) with
  | Return (table_no, pub_date, entries) =>
      Return (mkTable table_no pub_date url entries)
  | Raise e => Raise e
  end.

(** The loop of [get_table] over the generator. *)
Fixpoint get_table_loop (urlsgen : gen location) (d : date)
    : M (option (Table rates)) :=
  match urlsgen with
  | GStop => ret None
  | GRaise e => raise e
  | GYield (url, cache_file_path) rest =>
      let! data := fetch_data url cache_file_path in
      match data with
      | Some h =>
          let! table := lift (parse h (Some url)) in
          let! _ := close h in
          if negb (date_gt (publication_date table) d) then ret (Some table)
          else get_table_loop rest d
      | None => get_table_loop rest d
      end
  end.

Definition get_table (d : date) (table_type : string) (cache_dir : option string)
    : M (option (Table rates)) :=
  let! pub_number := lift (calculate_number count_working_days count_wednesdays
                                            d table_type) in
  get_table_loop
    (gen_urls count_working_days count_wednesdays
              (dt_year d) pub_number table_type 15 cache_dir) d.

End Resolver.

(** ** The day counters (nbp/dateutils.py) *)

Definition days_before_year (y : Z) : Z :=
  let p := y - 1 in p * 365 + p / 4 - p / 100 + p / 400.

Fixpoint days_before_month_from (y : Z) (m : nat) : Z :=
  match m with
  | O => 0
  | S m' => days_before_month_from y m' + days_in_month y (Z.of_nat m)
  end.

(** The position of a date in its year, 1 for January 1. *)
Definition day_of_year (d : date) : Z :=
  days_before_month_from (dt_year d) (Z.to_nat (dt_month d - 1)) + dt_day d.

(** The weekday of the [k]-th day of year [y], Monday being 0. *)
Definition weekday_of_year_day (y k : Z) : Z :=
  (days_before_year y + k + 6) mod 7.

Fixpoint count_year_days (keep : Z -> bool) (y : Z) (k : nat) : Z :=
  match k with
  | O => 0
  | S k' =>
      count_year_days keep y k' +
      (if keep (weekday_of_year_day y (Z.of_nat k)) then 1 else 0)
  end.

(** Modelled from the spec: rule A of the Day-Counter, the days from
    January 1 through the date, Saturdays and Sundays left out
    (nbp/dateutils.py, which the calculator calls, is not embedded from
    source). *)
Definition count_working_days (d : date) : Z :=
  count_year_days (fun wd => wd <? 5) (dt_year d) (Z.to_nat (day_of_year d)).

(** Modelled from the spec: rule B of the Day-Counter, the Wednesdays from
    January 1 through the date. *)
Definition count_wednesdays (d : date) : Z :=
  count_year_days (fun wd => wd =? 2) (dt_year d) (Z.to_nat (day_of_year d)).

(** ** A small network and document reader, for concrete runs *)

Module Scenario.

(** The server has the tables 112, 114 and 115 of series A of 2012 and an
    unreadable table 113; everything else is not found, one host answers
    with status 204 and one with a broken status line. *)
Definition urlopen (_ : list string) (url : string) : urlopen_result :=
  if String.eqb url "http://rss.nbp.pl/kursy/xml2/2012/a/12a115.xml"
  then Opened (Response (Some 200) "115/A/NBP/2012 2012-06-15")
  else if String.eqb url "http://rss.nbp.pl/kursy/xml2/2012/a/12a114.xml"
  then Opened (Response (Some 200) "114/A/NBP/2012 2012-06-14")
  else if String.eqb url "http://rss.nbp.pl/kursy/xml2/2012/a/12a113.xml"
  then Opened (Response (Some 200) "<html>")
  else if String.eqb url "http://rss.nbp.pl/kursy/xml2/2012/a/12a112.xml"
  then Opened (Response (Some 200) "112/A/NBP/2012 2012-06-05")
  else if String.eqb url "http://moved.example/"
  then Opened (Response (Some 204) "")
  else if String.eqb url "http://broken.example/"
  then Failed (OtherError "BadStatusLine")
  else Failed URLError.

Definition read_document (content : string) : outcome (string * date * unit) :=
  if String.eqb content "115/A/NBP/2012 2012-06-15"
  then Return ("115/A/NBP/2012", Date 2012 6 15, tt)
  else if String.eqb content "114/A/NBP/2012 2012-06-14"
  then Return ("114/A/NBP/2012", Date 2012 6 14, tt)
  else if String.eqb content "112/A/NBP/2012 2012-06-05"
  then Return ("112/A/NBP/2012", Date 2012 6 5, tt)
  else Raise (ParseFailure "IndexError").

Definition empty_world : world := World ∅ ∅ [] 0 [] [].

Definition get_table :=
  get_table count_working_days count_wednesdays urlopen unit read_document.

Definition fetch_data := fetch_data urlopen.

Definition gen_urls := gen_urls count_working_days count_wednesdays.

Definition calculate_number := calculate_number count_working_days count_wednesdays.

End Scenario.


(** ** Formatting and the search over the table types *)

(** What [format_result] returns: the dictionary with its five keys. *)
Record result (currency_dict : Type) : Type := mkResult {
  r_search_date : string;
  r_table_no : string;
  r_pub_date : string;
  r_url : option string;
  r_currency : currency_dict
}.

Arguments mkResult {currency_dict} _ _ _ _ _.
Arguments r_search_date {currency_dict} _.
Arguments r_table_no {currency_dict} _.
Arguments r_pub_date {currency_dict} _.
Arguments r_url {currency_dict} _.
Arguments r_currency {currency_dict} _.

Section Exchange.

Variable count_working_days : date -> Z.
Variable count_wednesdays : date -> Z.
Variable urlopen : list string -> string -> urlopen_result.
Variable rates : Type.
Variable read_document : string -> outcome (string * date * rates).

(** The methods of the models module that the two functions call:
    [Table.get], [Currency.to_dict(rescale_rate=True)], the truth value of
    a table, [currency in table]; and [strftime('%Y-%m-%d')] of datetime. *)
Variable currency_obj : Type.
Variable currency_dict : Type.
Variable table_get : Table rates -> string -> outcome currency_obj.
Variable to_dict : currency_obj -> outcome currency_dict.
Variable table_true : Table rates -> bool.
Variable table_contains : Table rates -> string -> bool.
Variable strftime : date -> outcome string.

Definition format_result (nbp_table : Table rates) (currency : string)
    (search_date : date) : outcome (result currency_dict) :=
  match table_get nbp_table currency with
  | Raise e => Raise e
  | Return currency_obj =>
      match strftime search_date with
      | Raise e => Raise e
      | Return sd =>
          match strftime (publication_date nbp_table) with
          | Raise e => Raise e
          | Return pd =>
              match to_dict currency_obj with
              | Raise e => Raise e
              | Return cd => Return (mkResult sd (no nbp_table) pd (url nbp_table) cd)
              end
          end
      end
  end.

(** The loop of [download_exchange_rate] over the table types left. *)
Fixpoint download_exchange_rate_loop (table_types : list string) (d : date)
    (currency : string) (cache_dir : option string)
    : M (option (result currency_dict)) :=
  match table_types with
  | [] => ret None
  | table_type :: rest =>
      let! nbp_table :=
        get_table count_working_days count_wednesdays urlopen rates
                  read_document d table_type cache_dir in
      match nbp_table with
      | Some t =>
          if table_true t && table_contains t currency then
            let! r := lift (format_result t currency d) in ret (Some r)
          else download_exchange_rate_loop rest d currency cache_dir
      | None => download_exchange_rate_loop rest d currency cache_dir
      end
  end.

Definition download_exchange_rate (d : date) (currency : string)
    (cache_dir : option string) : M (option (result currency_dict)) :=
  download_exchange_rate_loop TABLE_TYPES d currency cache_dir.

End Exchange.

(** The order in which the backward walk visits coordinates: the same year
    and the number before, or the year before once number 1 has been
    visited. *)
Definition steps_back (c c' : Z * Z) : Prop :=
  (fst c' = fst c /\ snd c' = snd c - 1 /\ snd c <> 1) \/
  (fst c' = fst c - 1 /\ snd c = 1).

(** Earlier in the numbering: an earlier year, or the same year and a
    lower number. *)
Definition earlier (c c' : Z * Z) : Prop :=
  fst c' < fst c \/ (fst c' = fst c /\ snd c' < snd c).

(** A string without its leading zeros. *)
Fixpoint strip_zeros (s : string) : string :=
  match s with
  | String c s' => if Ascii.eqb c "0" then strip_zeros s' else s
  | EmptyString => EmptyString
  end.

Module ScenarioExchange.

(** A table holds the codes of its currencies; every table is true. *)
Definition urlopen (_ : list string) (url : string) : urlopen_result :=
  if String.eqb url "http://rss.nbp.pl/kursy/xml2/2012/a/12a120.xml"
  then Opened (Response (Some 200) "120a")
  else if String.eqb url "http://rss.nbp.pl/kursy/xml2/2012/b/12b024.xml"
  then Opened (Response (Some 200) "024b")
  else Failed URLError.

Definition read_document (content : string)
    : outcome (string * date * list string) :=
  if String.eqb content "120a"
  then Return ("120/A/NBP/2012", Date 2012 6 15, ["USD"; "EUR"])
  else if String.eqb content "024b"
  then Return ("024/B/NBP/2012", Date 2012 6 13, ["AFN"])
  else Raise (ParseFailure "IndexError").

Definition table_get (t : Table (list string)) (code : string) : outcome string :=
  if str_in code (table_rates t) then Return code else Raise KeyError.

Definition to_dict (code : string) : outcome string := Return code.

Definition table_true (t : Table (list string)) : bool := true.

Definition table_contains (t : Table (list string)) (code : string) : bool :=
  str_in code (table_rates t).

Definition strftime (d : date) : outcome string :=
  Return (str_int (dt_year d) ++ "-" ++ rjust 2 "0" (str_int (dt_month d)) ++ "-" ++
          rjust 2 "0" (str_int (dt_day d))).

Definition download_exchange_rate :=
  download_exchange_rate count_working_days count_wednesdays urlopen
    (list string) read_document string string table_get to_dict table_true
    table_contains strftime.

Definition get_table :=
  get_table count_working_days count_wednesdays urlopen (list string) read_document.


End ScenarioExchange.

(** * Properties *)

(** ** Strings *)

Lemma str_app_cons (c : ascii) (s t : string) :
  String c s ++ t = String c (s ++ t).
Proof. reflexivity. Qed.

Lemma str_app_nil (t : string) : "" ++ t = t.
Proof. reflexivity. Qed.

Lemma str_length_app (s t : string) :
  String.length (s ++ t) = (String.length s + String.length t)%nat.
Proof.
  induction s as [|c s IH]; [reflexivity |].
  rewrite str_app_cons. simpl. now rewrite IH.
Qed.

Lemma str_length_repeat (c : ascii) (k : nat) :
  String.length (str_repeat c k) = k.
Proof. induction k as [|k IH]; simpl; [reflexivity | now rewrite IH]. Qed.

Lemma rjust_length (w : nat) (c : ascii) (s : string) :
  String.length (rjust w c s) = Nat.max w (String.length s).
Proof. unfold rjust. rewrite str_length_app, str_length_repeat. lia. Qed.

Lemma rjust_long (w : nat) (c : ascii) (s : string) :
  (w <= String.length s)%nat -> rjust w c s = s.
Proof.
  intros H. unfold rjust.
  replace (w - String.length s)%nat with 0%nat by lia. reflexivity.
Qed.

Lemma str_app_assoc (s t u : string) : (s ++ t) ++ u = s ++ (t ++ u).
Proof.
  induction s as [|c s IH]; [reflexivity |].
  rewrite !str_app_cons. now rewrite IH.
Qed.

Lemma endswith_refl (s : string) : endswith s s = true.
Proof. destruct s; cbn [endswith]; rewrite String.eqb_refl; reflexivity. Qed.

Lemma endswith_app (s t : string) : endswith (s ++ t) t = true.
Proof.
  induction s as [|c s IH].
  - rewrite str_app_nil. apply endswith_refl.
  - rewrite str_app_cons. simpl. rewrite IH. apply orb_true_r.
Qed.

(** [str(n)] is never empty and never starts with a separator. *)
Lemma str_int_head (n : Z) (rest : string) :
  starts_with_slash (str_int n ++ rest) = false.
Proof.
  unfold str_int. destruct (Z.to_int n) as [u|u].
  - destruct u; reflexivity.
  - reflexivity.
Qed.

Lemma url_path_relative (year pub_number : Z) (table_type : string) :
  starts_with_slash (url_path year pub_number table_type) = false.
Proof.
  unfold url_path, NBP_CURRENCY_TABLE_URL_PATTERN. apply str_int_head.
Qed.

Lemma pub_field_below_1000 (n : Z) :
  0 <= n < 1000 -> String.length (pub_field n) = 3%nat.
Proof.
  intros H.
  assert (Hall : forallb (fun k => Nat.eqb (String.length (pub_field (Z.of_nat k))) 3)
                         (seq 0 1000) = true) by (vm_compute; reflexivity).
  rewrite forallb_forall in Hall.
  specialize (Hall (Z.to_nat n)).
  rewrite Z2Nat.id in Hall by lia.
  apply Nat.eqb_eq, Hall, in_seq. lia.
Qed.

Example build_url_doc_1 :
  build_url 2012 123 "a" None =
  ("http://rss.nbp.pl/kursy/xml2/2012/a/12a123.xml", None).
Proof. reflexivity. Qed.

Example build_url_doc_2 :
  build_url 2012 123 "a" (Some "/home/user/.nbp/") =
  ("http://rss.nbp.pl/kursy/xml2/2012/a/12a123.xml",
   Some "/home/user/.nbp/2012/a/12a123.xml").
Proof. reflexivity. Qed.

(** ** The URL builder *)

(** C8. The publication number field of a URL is the decimal writing of
    the number with zeros put before it up to a width of 3, and nothing
    is ever cut: the field has the width 3 or that of the number, whichever
    is larger, and it stands right before the [.xml] ending, after the
    table type.  So 4 gives [a004.xml], 123 gives [a123.xml] and 1234 gives
    [a1234.xml]. *)
Theorem build_url_zero_pads_to_three :
  (forall (year pub_number : Z) (table_type : string) (cache_dir : option string),
      pub_field pub_number =
        str_repeat "0" (3 - String.length (str_int pub_number)) ++ str_int pub_number /\
      String.length (pub_field pub_number) =
        Nat.max 3 (String.length (str_int pub_number)) /\
      endswith (fst (build_url year pub_number table_type cache_dir))
               (table_type ++ pub_field pub_number ++ ".xml") = true) /\
  (forall pub_number : Z,
      (3 <= String.length (str_int pub_number))%nat ->
      pub_field pub_number = str_int pub_number) /\
  (forall pub_number : Z,
      0 <= pub_number < 1000 -> String.length (pub_field pub_number) = 3%nat) /\
  endswith (fst (build_url 2012 4 "a" None)) "a004.xml" = true /\
  endswith (fst (build_url 2012 123 "a" None)) "a123.xml" = true /\
  endswith (fst (build_url 2012 1234 "a" None)) "a1234.xml" = true /\
  pub_field 4 = "004" /\ pub_field 123 = "123" /\ pub_field 1234 = "1234".
Proof.
  split; [| split; [| split; [| repeat split; reflexivity]]].
  - intros year pub_number table_type cache_dir. split; [reflexivity |]. split.
    + apply rjust_length.
    + unfold build_url, url_path, NBP_CURRENCY_TABLE_URL_PATTERN. cbn [fst].
      set (tail := table_type ++ pub_field pub_number ++ ".xml").
      rewrite <- !str_app_assoc. apply endswith_app.
  - intros pub_number H. apply rjust_long. exact H.
  - apply pub_field_below_1000.
Qed.

(** The facts of C8 at the numbers 1234 and 7. *)
Lemma build_url_zero_pads_to_three_witness :
  pub_field 1234 = str_int 1234 /\ String.length (pub_field 7) = 3%nat.
Proof.
  split.
  - apply (proj1 (proj2 build_url_zero_pads_to_three) 1234). vm_compute. lia.
  - apply (proj1 (proj2 (proj2 build_url_zero_pads_to_three)) 7). lia.
Defined.

(** C9 as the code has it. The cache path is built from the very path
    that follows the prefix in the url: below a cache directory that is
    given and not the empty string it is the directory, a separator unless
    the directory ends with one, and that path; with no cache directory, or
    with the empty string, there is no cache path. *)
Theorem build_url_cache_path_mirrors_url
    (year pub_number : Z) (table_type : string) (cache_dir : option string) :
  let path := url_path year pub_number table_type in
  fst (build_url year pub_number table_type cache_dir) =
    NBP_CURRENCY_TABLE_URL_PREFIX ++ path /\
  snd (build_url year pub_number table_type cache_dir) =
    match cache_dir with
    | Some d =>
        if String.eqb d "" then None
        else Some (os_path_join d path)
    | None => None
    end /\
  (forall d, d <> "" ->
     os_path_join d path = d ++ (if ends_with_slash d then "" else "/") ++ path).
Proof.
  intros path. split; [reflexivity |]. split.
  - unfold build_url. simpl snd. destruct cache_dir as [d|]; [| reflexivity].
    unfold truthy. destruct (String.eqb d ""); reflexivity.
  - intros d Hd. unfold os_path_join. subst path.
    rewrite url_path_relative.
    destruct (String.eqb_spec d "") as [->|_]; [congruence |].
    simpl. destruct (ends_with_slash d); reflexivity.
Qed.

(** C9 as stated fails for a cache directory that is given as the empty
    string: joining it with the path would give the path itself, but the
    builder gives no cache path. *)
Lemma build_url_empty_cache_dir :
  let path := url_path 2012 123 "a" in
  os_path_join "" path = "2012/a/12a123.xml" /\
  snd (build_url 2012 123 "a" (Some "")) = None /\
  snd (build_url 2012 123 "a" (Some "")) <> Some (os_path_join "" path).
Proof. repeat split; try reflexivity. discriminate. Qed.

(** C9 at the cache directory of the docstring. *)
Lemma build_url_cache_path_mirrors_url_witness :
  os_path_join "/home/user/.nbp" (url_path 2012 123 "a") =
  "/home/user/.nbp" ++ "/" ++ url_path 2012 123 "a".
Proof.
  apply (proj2 (proj2 (build_url_cache_path_mirrors_url 2012 123 "a" None))
               "/home/user/.nbp").
  discriminate.
Defined.

(** ** The calculator *)

Section CalculatorFacts.

Variable count_working_days : date -> Z.
Variable count_wednesdays : date -> Z.

Local Abbreviation calculate := (calculate_number count_working_days count_wednesdays).

Lemma str_in_table_types (table_type : string) :
  str_in table_type TABLE_TYPES = true <-> table_type = A \/ table_type = B.
Proof.
  unfold str_in, TABLE_TYPES. simpl. rewrite !orb_true_iff, !String.eqb_eq.
  intuition discriminate.
Qed.

Lemma calculate_number_A (d : date) :
  calculate d A = Return (count_working_days d).
Proof. reflexivity. Qed.

Lemma calculate_number_B (d : date) :
  calculate d B = Return (count_wednesdays d).
Proof. reflexivity. Qed.

Lemma calculate_number_known (d : date) (table_type : string) :
  str_in table_type TABLE_TYPES = true ->
  exists n, calculate d table_type = Return n.
Proof.
  intros H. apply str_in_table_types in H as [-> | ->]; eexists; reflexivity.
Qed.

Lemma calculate_number_unknown (d : date) (table_type : string) :
  str_in table_type TABLE_TYPES = false ->
  calculate d table_type = Raise AssertionError.
Proof.
  intros H. unfold calculate_number.
  now rewrite H.
Qed.

(** A table type that is none of the two even after lower-casing is
    refused. *)
Lemma calculate_number_unknown_any_case (d : date) (table_type : string) :
  str_in (lower table_type) TABLE_TYPES = false ->
  calculate d table_type = Raise AssertionError.
Proof.
  intros H. apply calculate_number_unknown.
  destruct (str_in table_type TABLE_TYPES) eqn:E; [| reflexivity].
  apply str_in_table_types in E as [-> | ->]; discriminate H.
Qed.

End CalculatorFacts.

(** C6, the upper-case table types. The dispatch table is looked up with
    the lower-cased table type, under which ["A"] and ["B"] are the two
    known variants, but the assertion before it compares the table type as
    given: the calculator raises AssertionError for them instead of calling
    the day counter. *)
Theorem calculate_number_upper_case_refused
    (count_working_days count_wednesdays : date -> Z) (d : date) :
  lower "A" = A /\ lower "B" = B /\
  (exists f, TABLE_TYPES_DAY_COUNTER count_working_days count_wednesdays (lower "A") = Some f /\
             f d = count_working_days d) /\
  (exists f, TABLE_TYPES_DAY_COUNTER count_working_days count_wednesdays (lower "B") = Some f /\
             f d = count_wednesdays d) /\
  calculate_number count_working_days count_wednesdays d "A" = Raise AssertionError /\
  calculate_number count_working_days count_wednesdays d "B" = Raise AssertionError.
Proof.
  repeat split; try reflexivity; eexists; split; reflexivity.
Qed.

(** ** The backward generator *)

Section GeneratorFacts.

Variable count_working_days : date -> Z.
Variable count_wednesdays : date -> Z.

Local Abbreviation calculate := (calculate_number count_working_days count_wednesdays).
Local Abbreviation step := (beginning_of_year count_working_days count_wednesdays).
Local Abbreviation urls_loop := (gen_urls_loop count_working_days count_wednesdays).
Local Abbreviation urls := (gen_urls count_working_days count_wednesdays).
Local Abbreviation coords := (gen_coords count_working_days count_wednesdays).

Lemma previous_year_date_in_calendar (year : Z) :
  2 <= year <= MAXYEAR ->
  previous_year_date year = Return (Date (year - 1) 12 31).
Proof.
  unfold previous_year_date, mk_date, minus_one_day, MINYEAR, MAXYEAR.
  intros H. simpl.
  destruct (Z.leb_spec 1 year); [| lia].
  destruct (Z.leb_spec year 9999); [| lia].
  simpl. destruct (Z.ltb_spec 1 year); [reflexivity | lia].
Qed.

Lemma previous_year_date_inv (year : Z) (prev : date) :
  previous_year_date year = Return prev -> prev = Date (year - 1) 12 31.
Proof.
  unfold previous_year_date, mk_date, minus_one_day, MINYEAR, MAXYEAR.
  destruct (_ && _); [| discriminate]. simpl.
  destruct (1 <? year); [| discriminate]. congruence.
Qed.

Lemma beginning_of_year_keeps (year pub_number : Z) (table_type : string) :
  pub_number <> 0 ->
  step year pub_number table_type = Return (year, pub_number).
Proof.
  intros H. unfold beginning_of_year.
  destruct (Z.eqb_spec pub_number 0); [contradiction | reflexivity].
Qed.

Lemma beginning_of_year_rolls (year : Z) (table_type : string) (n : Z) :
  2 <= year <= MAXYEAR ->
  calculate (Date (year - 1) 12 31) table_type = Return n ->
  step year 0 table_type = Return (year - 1, n).
Proof.
  intros Hy Hn. unfold beginning_of_year. simpl.
  rewrite previous_year_date_in_calendar by exact Hy.
  rewrite Hn. reflexivity.
Qed.

(** What one iteration gives is either the coordinate as it stands, or the
    last day of the year before, and then only from publication number 0. *)
Lemma beginning_of_year_inv (year pub_number : Z) (table_type : string) (y n : Z) :
  step year pub_number table_type = Return (y, n) ->
  (pub_number <> 0 /\ y = year /\ n = pub_number) \/
  (pub_number = 0 /\ y = year - 1 /\
   calculate (Date (year - 1) 12 31) table_type = Return n).
Proof.
  unfold beginning_of_year.
  destruct (Z.eqb_spec pub_number 0) as [-> | Hne].
  - destruct (previous_year_date year) as [prev|] eqn:Hp; [| discriminate].
    apply previous_year_date_inv in Hp. subst prev.
    destruct (calculate_number _ _) as [m|] eqn:Hc; [| discriminate].
    simpl. intros [= <- <-]. right. auto.
  - intros [= <- <-]. left. auto.
Qed.

Lemma gen_urls_loop_coords (budget : nat) (year pub_number : Z)
    (table_type : string) (cache_dir : option string) :
  urls_loop budget year pub_number table_type cache_dir =
  gen_map (fun c => build_url (fst c) (snd c) table_type cache_dir)
          (coords budget year pub_number table_type).
Proof.
  revert year pub_number.
  induction budget as [|budget IH]; intros year pub_number; [reflexivity |].
  simpl.
  destruct (beginning_of_year _ _ _ _ _) as [[y n]|e]; [| reflexivity].
  simpl. now rewrite IH.
Qed.

Lemma gen_items_map {T U} (f : T -> U) (g : gen T) :
  gen_items (gen_map f g) = map f (gen_items g).
Proof. induction g as [| |x rest IH]; simpl; [reflexivity.. | now rewrite IH]. Qed.

Lemma gen_raises_map {T U} (f : T -> U) (g : gen T) :
  gen_raises (gen_map f g) = gen_raises g.
Proof. induction g as [| |x rest IH]; simpl; auto. Qed.

End GeneratorFacts.

Section GeneratorTheorems.

Variable count_working_days : date -> Z.
Variable count_wednesdays : date -> Z.

Local Abbreviation calculate := (calculate_number count_working_days count_wednesdays).
Local Abbreviation step := (beginning_of_year count_working_days count_wednesdays).
Local Abbreviation urls_loop := (gen_urls_loop count_working_days count_wednesdays).
Local Abbreviation urls := (gen_urls count_working_days count_wednesdays).
Local Abbreviation coords := (gen_coords count_working_days count_wednesdays).

(** *** The number of locations *)

Lemma coords_length_le (budget : nat) (year pub_number : Z) (table_type : string) :
  (length (gen_items (coords budget year pub_number table_type)) <= budget)%nat.
Proof.
  revert year pub_number.
  induction budget as [|budget IH]; intros year pub_number; simpl; [lia |].
  destruct (step _ _ _) as [[y n]|e]; simpl; [| lia].
  specialize (IH y (n - 1)). lia.
Qed.

Lemma coords_length_complete (budget : nat) (year pub_number : Z) (table_type : string) :
  gen_raises (coords budget year pub_number table_type) = None ->
  length (gen_items (coords budget year pub_number table_type)) = budget.
Proof.
  revert year pub_number.
  induction budget as [|budget IH]; intros year pub_number; simpl; [reflexivity |].
  destruct (step _ _ _) as [[y n]|e]; simpl; [| discriminate].
  intros H. now rewrite IH.
Qed.

(** No iteration raises when the table type is known and the calendar has
    a year before each year that the budget can reach. *)
Lemma coords_complete_in_calendar (budget : nat) (year pub_number : Z)
    (table_type : string) :
  str_in table_type TABLE_TYPES = true ->
  Z.of_nat budget < year <= MAXYEAR ->
  gen_raises (coords budget year pub_number table_type) = None.
Proof.
  intros Htt. revert year pub_number.
  induction budget as [|budget IH]; intros year pub_number Hy; simpl; [reflexivity |].
  destruct (Z.eq_dec pub_number 0) as [-> | Hne].
  - destruct (calculate_number_known count_working_days count_wednesdays
                (Date (year - 1) 12 31) table_type Htt) as [n Hn].
    rewrite (beginning_of_year_rolls _ _ year table_type n) by (lia || exact Hn).
    simpl. apply IH. lia.
  - rewrite beginning_of_year_keeps by exact Hne. simpl. apply IH. lia.
Qed.

(** No iteration raises either when the walk cannot reach number 0. *)
Lemma coords_complete_far_from_zero (budget : nat) (year pub_number : Z)
    (table_type : string) :
  pub_number < 0 \/ Z.of_nat budget <= pub_number ->
  gen_raises (coords budget year pub_number table_type) = None.
Proof.
  revert pub_number.
  induction budget as [|budget IH]; intros pub_number H; simpl; [reflexivity |].
  rewrite beginning_of_year_keeps by lia. simpl. apply IH. lia.
Qed.

(** Calling [next()] until the generator ends gives the trace of
    [gen_urls], as soon as the fuel exceeds [gen_number]. *)
Lemma gen_unfold_gen_urls (fuel : nat) (year pub_number gen_number : Z)
    (table_type : string) (cache_dir : option string) :
  (Z.to_nat gen_number < fuel)%nat ->
  gen_unfold count_working_days count_wednesdays fuel table_type cache_dir
             (GenState year pub_number gen_number) =
  Some (urls year pub_number table_type gen_number cache_dir).
Proof.
  revert year pub_number gen_number.
  induction fuel as [|fuel IH]; intros year pub_number gen_number Hf; [lia |].
  unfold gen_urls. cbn [gen_unfold]. unfold gen_next. cbn [gs_gen_number gs_year gs_pub_number].
  destruct (Z.ltb_spec 0 gen_number) as [Hpos | Hle].
  - replace (Z.to_nat gen_number) with (S (Z.to_nat (gen_number - 1))) by lia.
    cbn [gen_urls_loop].
    destruct (step year pub_number table_type) as [[y n]|e]; [| reflexivity].
    rewrite IH by lia. reflexivity.
  - replace (Z.to_nat gen_number) with 0%nat by lia. reflexivity.
Qed.

(** *** Publication numbers of the locations *)

Lemma coords_positive (budget : nat) (year pub_number : Z) (table_type : string) :
  0 <= pub_number ->
  (forall y m n, y < year ->
                 In (y, m) (gen_items (coords budget year pub_number table_type)) ->
                 calculate (Date y 12 31) table_type = Return n -> 0 < n) ->
  Forall (fun c => 1 <= snd c) (gen_items (coords budget year pub_number table_type)).
Proof.
  revert year pub_number.
  induction budget as [|budget IH]; intros year pub_number Hp Hc;
    [constructor |].
  cbn [gen_coords] in *.
  destruct (step _ _ _) as [[y n]|e] eqn:Hs; cbn [gen_items] in *; [| constructor].
  apply beginning_of_year_inv in Hs as [(Hne & -> & ->) | (-> & -> & Hn)].
  - constructor; [simpl; lia |]. apply IH; [lia |].
    intros y m n Hy Hin. apply (Hc y m n); [lia | now right].
  - assert (0 < n) by (apply (Hc (year - 1) n n); [lia | now left | exact Hn]).
    constructor; [simpl; lia |]. apply IH; [lia |].
    intros y m k Hy Hin. apply (Hc y m k); [lia | now right].
Qed.

End GeneratorTheorems.

(** ** Download and fetch *)

Lemma date_gt_false_iff (d1 d2 : date) : date_gt d1 d2 = false <-> date_le d1 d2.
Proof.
  unfold date_gt, date_le.
  destruct (Z.ltb_spec (dt_year d2) (dt_year d1));
    destruct (Z.eqb_spec (dt_year d1) (dt_year d2));
    destruct (Z.ltb_spec (dt_month d2) (dt_month d1));
    destruct (Z.eqb_spec (dt_month d1) (dt_month d2));
    destruct (Z.ltb_spec (dt_day d2) (dt_day d1));
    simpl; split; intros; try discriminate; try reflexivity; lia.
Qed.

Ltac unfold_m :=
  unfold bind, ret, raise, lift, note_fetch, dir_exists, create_dir,
    file_exists, save, open, close, get_cache in *.

Ltac case_m :=
  repeat (simpl;
    match goal with
    | |- context [match ?x with _ => _ end] =>
        lazymatch x with
        | context [match _ with _ => _ end] => fail
        | _ => destruct x eqn:?
        end
    end).

Section FetchFacts.

Variable urlopen : list string -> string -> urlopen_result.

Local Abbreviation net_download := (download urlopen).
Local Abbreviation net_fetch := (fetch_data urlopen).

(** [download] leaves everything but the request history and the handle
    counter as it was. *)
Lemma download_frame (url : string) (w : world) :
  let w' := snd (net_download url w) in
  dirs w' = dirs w /\ files w' = files w /\ closed w' = closed w /\
  fetched w' = fetched w /\ requests w' = url :: requests w /\
  (issued w <= issued w')%nat.
Proof.
  unfold download. simpl.
  destruct (urlopen _ _) as [resp|e]; simpl.
  - destruct (getcode resp) as [code|]; simpl;
      [destruct (code =? 200) |]; simpl; repeat split; lia.
  - destruct e; simpl; repeat split; lia.
Qed.

(** What [download] gives back, by what [urlopen] did. *)
Lemma download_result (url : string) (w : world) :
  fst (net_download url w) =
  match urlopen (requests w) url with
  | Opened resp =>
      if bool_decide (getcode resp = Some 200)
      then Return (Some (Handle (issued w) (body resp)))
      else Return None
  | Failed URLError => Return None
  | Failed e => Raise e
  end.
Proof.
  unfold download.
  destruct (urlopen _ _) as [resp|e]; simpl.
  - destruct (getcode resp) as [code|]; simpl; [| reflexivity].
    destruct (Z.eqb_spec code 200) as [-> | Hne]; simpl; [reflexivity |].
    rewrite bool_decide_eq_false_2; [reflexivity | congruence].
  - destruct e; reflexivity.
Qed.

Lemma fetch_data_fetched (url : string) (cache_file_path : option string) (w : world) :
  fetched (snd (net_fetch url cache_file_path w)) =
  (url, cache_file_path) :: fetched w.
Proof.
  unfold fetch_data, download. unfold_m. simpl.
  case_m; reflexivity.
Qed.

Lemma fetch_data_closed (url : string) (cache_file_path : option string) (w : world) :
  closed (snd (net_fetch url cache_file_path w)) = closed w.
Proof.
  unfold fetch_data, download. unfold_m. simpl.
  case_m; reflexivity.
Qed.

End FetchFacts.

Section FetchCache.

Variable urlopen : list string -> string -> urlopen_result.

Local Abbreviation net_download := (download urlopen).
Local Abbreviation net_fetch := (fetch_data urlopen).

(** The whole of what [fetch_data] does with a cache file path that is not
    empty, case by case. *)
Lemma fetch_data_cached_run (url path : string) (w : world) :
  path <> "" ->
  net_fetch url (Some path) w =
  let ds := with_cache_dir path w in
  let log := (url, Some path) :: fetched w in
  match files w !! path with
  | Some content =>
      (Return (Some (Handle (issued w) content)),
       World ds (files w) (requests w) (S (issued w)) (closed w) log)
  | None =>
      match urlopen (requests w) url with
      | Opened resp =>
          if bool_decide (getcode resp = Some 200) then
            (Return (Some (Handle (S (issued w)) (body resp))),
             World ds (<[path := body resp]> (files w)) (url :: requests w)
                   (S (S (issued w))) (closed w) log)
          else
            (Return None,
             World ds (files w) (url :: requests w) (S (issued w)) (closed w) log)
      | Failed e =>
          (match e with URLError => Return None | _ => Raise e end,
           World ds (files w) (url :: requests w) (issued w) (closed w) log)
      end
  end.
Proof.
  intros Hpath.
  assert (Ht : String.eqb path "" = false) by (now apply String.eqb_neq).
  unfold fetch_data, download, with_cache_dir. unfold_m. simpl. rewrite Ht. simpl.
  destruct (bool_decide (cache_dirname path ∈ dirs w));
    destruct (files w !! path) as [content|] eqn:E;
    repeat (simpl; rewrite ?E); try reflexivity;
    (destruct (urlopen (requests w) url) as [resp|e];
     [ destruct (getcode resp) as [code|];
       [ destruct (Z.eqb_spec code 200) as [-> | Hne];
         [ repeat (simpl; rewrite ?lookup_insert_eq); reflexivity
         | repeat (simpl; rewrite ?E);
           rewrite bool_decide_eq_false_2 by congruence; reflexivity ]
       | repeat (simpl; rewrite ?E); reflexivity ]
     | destruct e; repeat (simpl; rewrite ?E); reflexivity ]).
Qed.

Lemma fetch_data_uncached_run (url : string) (cache_file_path : option string)
    (w : world) :
  truthy cache_file_path = false ->
  net_fetch url cache_file_path w =
  net_download url (World (dirs w) (files w) (requests w) (issued w) (closed w)
                          ((url, cache_file_path) :: fetched w)).
Proof.
  intros Ht. unfold fetch_data. unfold_m. simpl.
  destruct cache_file_path as [path|]; [| reflexivity].
  rewrite Ht. reflexivity.
Qed.

(** C4 as the code has it, for a cache file path that is given and is not
    the empty string. After [fetch_data] the cache directory exists; the
    network was asked once if the cache file did not exist and not at all
    if it did; the file was written only when the retrieval gave a
    response with status 200; a handle is returned exactly when the cache
    file exists afterwards, and it reads that file; a retrieval that ends
    in URLError or in a response whose status is not 200 gives the absent
    result, and nothing is raised but what [urlopen] raises outside
    URLError; after a call that returned a handle, a second call with the
    same pair asks the network nothing and returns the same content. *)
Theorem fetch_data_with_cache (url path : string) (w : world) :
  path <> "" ->
  let r := net_fetch url (Some path) w in
  let w' := snd r in
  cache_dirname path ∈ dirs w' /\
  requests w' =
    (if bool_decide (is_Some (files w !! path)) then requests w
     else url :: requests w) /\
  files w' =
    match files w !! path, urlopen (requests w) url with
    | None, Opened resp =>
        if bool_decide (getcode resp = Some 200)
        then <[path := body resp]> (files w) else files w
    | _, _ => files w
    end /\
  ((exists h, fst r = Return (Some h)) <-> is_Some (files w' !! path)) /\
  (forall h, fst r = Return (Some h) -> files w' !! path = Some (h_content h)) /\
  (files w !! path = None ->
   urlopen (requests w) url = Failed URLError \/
   (exists resp, urlopen (requests w) url = Opened resp /\
                 getcode resp <> Some 200) ->
   fst r = Return None) /\
  (forall e, fst r = Raise e ->
     files w !! path = None /\ urlopen (requests w) url = Failed e /\
     e <> URLError) /\
  (forall h, fst r = Return (Some h) ->
     let r2 := net_fetch url (Some path) w' in
     requests (snd r2) = requests w' /\
     exists h2, fst r2 = Return (Some h2) /\ h_content h2 = h_content h).
Proof.
  intros Hpath r w'.
  assert (Hdir : cache_dirname path ∈ with_cache_dir path w).
  { unfold with_cache_dir. case_bool_decide; set_solver. }
  assert (Hhit : forall h, fst r = Return (Some h) ->
                           files w' !! path = Some (h_content h)).
  { subst w' r. rewrite fetch_data_cached_run by exact Hpath. cbv zeta.
    destruct (files w !! path) as [content|] eqn:E.
    - simpl. intros h [= <-]. exact E.
    - destruct (urlopen (requests w) url) as [resp|e].
      + case_bool_decide; simpl; [| discriminate].
        intros h [= <-]. simpl. apply lookup_insert_eq.
      + destruct e; discriminate. }
  repeat split.
  - subst w' r. rewrite fetch_data_cached_run by exact Hpath. cbv zeta.
    destruct (files w !! path); [exact Hdir |].
    destruct (urlopen _ _) as [resp|e]; [case_bool_decide |]; exact Hdir.
  - subst w' r. rewrite fetch_data_cached_run by exact Hpath. cbv zeta.
    destruct (files w !! path); simpl; [reflexivity |].
    destruct (urlopen _ _) as [resp|e]; [case_bool_decide |]; reflexivity.
  - subst w' r. rewrite fetch_data_cached_run by exact Hpath. cbv zeta.
    destruct (files w !! path); simpl; [reflexivity |].
    destruct (urlopen _ _) as [resp|e]; [case_bool_decide |]; reflexivity.
  - intros [h Hh]. rewrite (Hhit h Hh). eauto.
  - subst w' r. rewrite fetch_data_cached_run by exact Hpath. cbv zeta.
    destruct (files w !! path) as [content|] eqn:E; [eauto |].
    destruct (urlopen _ _) as [resp|e]; [case_bool_decide |]; simpl;
      rewrite ?E; intros [x Hx]; try discriminate Hx. eauto.
  - exact Hhit.
  - intros E Hfail. subst w' r.
    rewrite fetch_data_cached_run by exact Hpath. cbv zeta. rewrite E.
    destruct Hfail as [-> | (resp & -> & Hcode)]; [reflexivity |].
    rewrite bool_decide_eq_false_2 by exact Hcode. reflexivity.
  - subst w' r. rewrite fetch_data_cached_run in H by exact Hpath.
    cbv zeta in H. destruct (files w !! path); [discriminate | reflexivity].
  - subst w' r. rewrite fetch_data_cached_run in H by exact Hpath.
    cbv zeta in H. destruct (files w !! path); [discriminate |].
    destruct (urlopen _ _) as [resp|e0]; [case_bool_decide; discriminate |].
    destruct e0; simpl in H; congruence.
  - subst w' r. rewrite fetch_data_cached_run in H by exact Hpath.
    cbv zeta in H. destruct (files w !! path); [discriminate |].
    destruct (urlopen _ _) as [resp|e0]; [case_bool_decide; discriminate |].
    destruct e0; simpl in H; congruence.
  - apply Hhit in H. rewrite fetch_data_cached_run by exact Hpath.
    cbv zeta. rewrite H. reflexivity.
  - apply Hhit in H. rewrite fetch_data_cached_run by exact Hpath.
    cbv zeta. rewrite H. eexists. split; reflexivity.
Qed.

End FetchCache.

(** ** The resolver *)

Section ResolverFacts.

Variable count_working_days : date -> Z.
Variable count_wednesdays : date -> Z.
Variable urlopen : list string -> string -> urlopen_result.
Variable rates : Type.
Variable read_document : string -> outcome (string * date * rates).

Local Abbreviation net_fetch := (fetch_data urlopen).
Local Abbreviation read := (parse rates read_document).
Local Abbreviation resolve_loop := (get_table_loop urlopen rates read_document).
Local Abbreviation resolve :=
  (get_table count_working_days count_wednesdays urlopen rates read_document).

(** One turn of the loop of [get_table], by what the fetch and the parse
    give. *)
Lemma get_table_loop_step (url : string) (cache_file_path : option string)
    (rest : gen location) (d : date) (w : world) :
  resolve_loop (GYield (url, cache_file_path) rest) d w =
  match net_fetch url cache_file_path w with
  | (Raise e, w1) => (Raise e, w1)
  | (Return None, w1) => resolve_loop rest d w1
  | (Return (Some h), w1) =>
      match read h (Some url) with
      | Raise e => (Raise e, w1)
      | Return table =>
          if date_gt (publication_date table) d
          then resolve_loop rest d (after_close h w1)
          else (Return (Some table), after_close h w1)
      end
  end.
Proof.
  simpl. unfold bind at 1.
  destruct (net_fetch url cache_file_path w) as [[[h|]|e] w1]; try reflexivity.
  unfold bind, lift, close, ret.
  destruct (read h (Some url)) as [table|e]; [| reflexivity].
  destruct (date_gt (publication_date table) d); reflexivity.
Qed.

Lemma get_table_loop_accepts_in_time (g : gen location) (d : date) (w w' : world)
    (t : Table rates) :
  resolve_loop g d w = (Return (Some t), w') ->
  date_gt (publication_date t) d = false.
Proof.
  revert w. induction g as [| e | [url cfp] rest IH]; intros w.
  - discriminate.
  - discriminate.
  - rewrite get_table_loop_step.
    destruct (net_fetch url cfp w) as [[[h|]|e] w1]; [| apply IH | discriminate].
    destruct (read h (Some url)) as [table|e]; [| discriminate].
    destruct (date_gt (publication_date table) d) eqn:E; [apply IH |].
    intros [= <- <-]. exact E.
Qed.

Lemma get_table_loop_fetches (g : gen location) (d : date) (w : world) :
  (length (fetched (snd (resolve_loop g d w))) <=
   length (fetched w) + length (gen_items g))%nat.
Proof.
  revert w. induction g as [| e | [url cfp] rest IH]; intros w; simpl gen_items.
  - simpl. lia.
  - simpl. lia.
  - rewrite get_table_loop_step.
    pose proof (fetch_data_fetched urlopen url cfp w) as Hf.
    destruct (net_fetch url cfp w) as [[[h|]|e] w1]; simpl in Hf.
    + destruct (read h (Some url)) as [table|e].
      * destruct (date_gt (publication_date table) d).
        -- specialize (IH (after_close h w1)). simpl in IH. rewrite Hf in IH.
           simpl in *. lia.
        -- simpl. rewrite Hf. simpl. lia.
      * simpl. rewrite Hf. simpl. lia.
    + specialize (IH w1). rewrite Hf in IH. simpl in *. lia.
    + simpl. rewrite Hf. simpl. lia.
Qed.

Lemma get_table_loop_keeps_closed (g : gen location) (d : date) (w : world) (i : nat) :
  In i (closed w) -> In i (closed (snd (resolve_loop g d w))).
Proof.
  revert w. induction g as [| e | [url cfp] rest IH]; intros w Hi.
  - exact Hi.
  - exact Hi.
  - rewrite get_table_loop_step.
    pose proof (fetch_data_closed urlopen url cfp w) as Hc.
    destruct (net_fetch url cfp w) as [[[h|]|e] w1]; simpl in Hc.
    + destruct (read h (Some url)) as [table|e].
      * destruct (date_gt (publication_date table) d).
        -- apply IH. simpl. right. now rewrite Hc.
        -- simpl. right. now rewrite Hc.
      * simpl. now rewrite Hc.
    + apply IH. now rewrite Hc.
    + simpl. now rewrite Hc.
Qed.

End ResolverFacts.

(** ** The statements about the generator *)

Section GeneratorStatements.

Variable count_working_days : date -> Z.
Variable count_wednesdays : date -> Z.

Local Abbreviation calculate := (calculate_number count_working_days count_wednesdays).
Local Abbreviation urls_loop := (gen_urls_loop count_working_days count_wednesdays).
Local Abbreviation urls := (gen_urls count_working_days count_wednesdays).
Local Abbreviation coords := (gen_coords count_working_days count_wednesdays).

(** C2. With a known table type and a year that has a year before it in
    the calendar, one iteration of the generator with budget left does
    this: at a publication number other than 0 it yields the location of
    the coordinate as it stands and goes on one number lower in the same
    year; at publication number 0 it takes December 31 of the year before,
    asks the calculator for the number of that day with the same table
    type, yields the location of that year and number, and goes on one
    number lower in that year.  Started at (2013, 0, B) the generator
    first yields the location of year 2012 and of the number that the
    calculator gives for 2012-12-31 and B. *)
Theorem gen_urls_rolls_over_at_zero
    (budget : nat) (year pub_number : Z) (table_type : string)
    (cache_dir : option string) :
  str_in table_type TABLE_TYPES = true ->
  2 <= year <= MAXYEAR ->
  (pub_number <> 0 ->
   urls_loop (S budget) year pub_number table_type cache_dir =
   GYield (build_url year pub_number table_type cache_dir)
          (urls_loop budget year (pub_number - 1) table_type cache_dir)) /\
  (pub_number = 0 ->
   exists n,
     previous_year_date year = Return (Date (year - 1) 12 31) /\
     calculate (Date (year - 1) 12 31) table_type = Return n /\
     urls_loop (S budget) year pub_number table_type cache_dir =
     GYield (build_url (year - 1) n table_type cache_dir)
            (urls_loop budget (year - 1) (n - 1) table_type cache_dir)) /\
  (exists n,
     calculate (Date 2012 12 31) B = Return n /\
     gen_head (coords 15 2013 0 B) = Some (2012, n) /\
     gen_head (urls 2013 0 B 15 cache_dir) = Some (build_url 2012 n B cache_dir)).
Proof.
  intros Htt Hy. split; [| split].
  - intros Hne. simpl. rewrite beginning_of_year_keeps by exact Hne. reflexivity.
  - intros ->.
    destruct (calculate_number_known count_working_days count_wednesdays
                (Date (year - 1) 12 31) table_type Htt) as [n Hn].
    exists n. split; [now apply previous_year_date_in_calendar |].
    split; [exact Hn |]. simpl.
    rewrite (beginning_of_year_rolls _ _ year table_type n Hy Hn). reflexivity.
  - exists (count_wednesdays (Date 2012 12 31)). repeat split.
Qed.

(** C10. When the walk starts at a publication number that is not negative
    and the calculator gives a positive number for December 31 of each
    earlier year that the walk enters, every coordinate for which the
    generator builds a location has a publication number of at least 1;
    the locations yielded are those of these coordinates, in order. *)
Theorem gen_urls_yields_no_zero
    (year pub_number : Z) (table_type : string) (gen_number : Z)
    (cache_dir : option string) :
  let cs := gen_items (coords (Z.to_nat gen_number) year pub_number table_type) in
  0 <= pub_number ->
  (forall y m n, y < year -> In (y, m) cs ->
                 calculate (Date y 12 31) table_type = Return n -> 0 < n) ->
  gen_items (urls year pub_number table_type gen_number cache_dir) =
    map (fun c => build_url (fst c) (snd c) table_type cache_dir) cs /\
  Forall (fun c => 1 <= snd c) cs.
Proof.
  intros cs Hp Hc. split.
  - unfold gen_urls. rewrite gen_urls_loop_coords. apply gen_items_map.
  - apply coords_positive; assumption.
Qed.

(** The part of C3 on the generator, as the code has it. The generator
    with a budget of 15 never yields more than 15 locations; it yields
    exactly 15 and stops whenever no iteration raises; and none raises
    when the table type is known and the year is between 16 and the last
    year of the calendar, or when the walk cannot reach number 0. *)
Lemma gen_urls_budget_15
    (year pub_number : Z) (table_type : string) (cache_dir : option string) :
  let g := urls year pub_number table_type 15 cache_dir in
  (length (gen_items g) <= 15)%nat /\
  (gen_raises g = None -> length (gen_items g) = 15%nat) /\
  (str_in table_type TABLE_TYPES = true -> 16 <= year <= MAXYEAR ->
   gen_raises g = None) /\
  (pub_number < 0 \/ 15 <= pub_number -> gen_raises g = None).
Proof.
  intros g. subst g. unfold gen_urls. rewrite gen_urls_loop_coords.
  rewrite gen_items_map, gen_raises_map, length_map.
  change (Z.to_nat 15) with 15%nat.
  split; [apply coords_length_le |].
  split; [apply coords_length_complete |].
  split.
  - intros Htt Hy. apply coords_complete_in_calendar; [exact Htt | lia].
  - intros Hp. apply coords_complete_far_from_zero. lia.
Qed.

End GeneratorStatements.

(** ** The statements about the resolver *)

Section ResolverStatements.

Variable count_working_days : date -> Z.
Variable count_wednesdays : date -> Z.
Variable urlopen : list string -> string -> urlopen_result.
Variable rates : Type.
Variable read_document : string -> outcome (string * date * rates).

Local Abbreviation urls := (gen_urls count_working_days count_wednesdays).
Local Abbreviation net_fetch := (fetch_data urlopen).
Local Abbreviation read := (parse rates read_document).
Local Abbreviation resolve_loop := (get_table_loop urlopen rates read_document).
Local Abbreviation resolve :=
  (get_table count_working_days count_wednesdays urlopen rates read_document).

(** An unknown table type is refused before the world is touched: nothing
    is fetched and the network is not asked. *)
Lemma get_table_unknown_table_type (d : date) (table_type : string)
    (cache_dir : option string) (w : world) :
  str_in table_type TABLE_TYPES = false ->
  resolve d table_type cache_dir w = (Raise AssertionError, w).
Proof.
  intros H. unfold get_table, bind, lift.
  now rewrite calculate_number_unknown.
Qed.

(** C1. A table that [get_table] returns has a publication date that is
    not after the date asked for; and a candidate that is fetched, is
    parsed and has a publication date not after that date is returned at
    once, whatever candidates remain, the world being the one right after
    the handle was closed. *)
Theorem get_table_never_after_date :
  (forall (d : date) (table_type : string) (cache_dir : option string)
          (w w' : world) (t : Table rates),
      resolve d table_type cache_dir w = (Return (Some t), w') ->
      date_gt (publication_date t) d = false /\
      date_le (publication_date t) d) /\
  (forall (url : string) (cache_file_path : option string) (rest : gen location)
          (d : date) (w w1 : world) (h : handle) (t : Table rates),
      net_fetch url cache_file_path w = (Return (Some h), w1) ->
      read h (Some url) = Return t ->
      date_le (publication_date t) d ->
      resolve_loop (GYield (url, cache_file_path) rest) d w =
      (Return (Some t), after_close h w1)).
Proof.
  split.
  - intros d table_type cache_dir w w' t H.
    assert (Hgt : date_gt (publication_date t) d = false).
    { unfold get_table, bind, lift in H.
      destruct (calculate_number _ _ d table_type) as [n|e]; [| discriminate].
      eapply get_table_loop_accepts_in_time. exact H. }
    split; [exact Hgt | now apply date_gt_false_iff].
  - intros url cfp rest d w w1 h t Hf Hp Hle.
    rewrite get_table_loop_step, Hf, Hp.
    apply date_gt_false_iff in Hle. now rewrite Hle.
Qed.

(** C5. When a candidate is fetched and its parsing raises, the loop of
    [get_table] raises the same exception there and then: no candidate
    that remains is fetched, whatever it is.  When the fetch gives
    nothing, the loop goes on with the candidates that remain. *)
Theorem get_table_parse_failure_aborts :
  (forall (url : string) (cache_file_path : option string) (rest : gen location)
          (d : date) (w w1 : world) (h : handle) (e : exn),
      net_fetch url cache_file_path w = (Return (Some h), w1) ->
      read h (Some url) = Raise e ->
      resolve_loop (GYield (url, cache_file_path) rest) d w = (Raise e, w1) /\
      fetched w1 = (url, cache_file_path) :: fetched w) /\
  (forall (url : string) (cache_file_path : option string) (rest : gen location)
          (d : date) (w w1 : world),
      net_fetch url cache_file_path w = (Return None, w1) ->
      resolve_loop (GYield (url, cache_file_path) rest) d w =
      resolve_loop rest d w1).
Proof.
  split.
  - intros url cfp rest d w w1 h e Hf Hp. split.
    + now rewrite get_table_loop_step, Hf, Hp.
    + pose proof (fetch_data_fetched urlopen url cfp w) as H.
      now rewrite Hf in H.
  - intros url cfp rest d w w1 Hf. now rewrite get_table_loop_step, Hf.
Qed.

(** C7 as the code has it. The handle of a candidate that is fetched and
    whose parsing completes is closed right after the parsing, before the
    date is looked at, and it is among the closed handles when the loop of
    [get_table] ends, whether the table was accepted or rejected and
    however the loop ends after that. *)
Theorem get_table_closes_parsed_handle :
  forall (url : string) (cache_file_path : option string) (rest : gen location)
         (d : date) (w w1 : world) (h : handle) (t : Table rates),
    net_fetch url cache_file_path w = (Return (Some h), w1) ->
    read h (Some url) = Return t ->
    In (h_id h) (closed (snd (resolve_loop (GYield (url, cache_file_path) rest) d w))) /\
    resolve_loop (GYield (url, cache_file_path) rest) d w =
      (if date_gt (publication_date t) d
       then resolve_loop rest d (after_close h w1)
       else (Return (Some t), after_close h w1)) /\
    closed (after_close h w1) = h_id h :: closed w.
Proof.
  intros url cfp rest d w w1 h t Hf Hp.
  pose proof (fetch_data_closed urlopen url cfp w) as Hc.
  rewrite Hf in Hc. simpl in Hc.
  rewrite get_table_loop_step, Hf, Hp. split; [| split].
  - destruct (date_gt (publication_date t) d).
    + apply get_table_loop_keeps_closed. simpl. now left.
    + simpl. now left.
  - reflexivity.
  - simpl. now rewrite Hc.
Qed.

(** C3 as the code has it. The generator with a budget of 15 yields at
    most 15 locations; it yields exactly 15 and then stops unless an
    iteration raises, which none does for a known table type and a year
    from 16 to the last year of the calendar, nor when the walk cannot
    reach number 0; sixteen calls of [next()] always see the end of the
    generator.  [get_table] is a total function of its arguments and of
    the world, and it calls [fetch_data] at most 15 times. *)
Theorem get_table_at_most_15_fetches :
  (forall (year pub_number : Z) (table_type : string) (cache_dir : option string),
      let g := urls year pub_number table_type 15 cache_dir in
      (length (gen_items g) <= 15)%nat /\
      (gen_raises g = None -> length (gen_items g) = 15%nat) /\
      (str_in table_type TABLE_TYPES = true -> 16 <= year <= MAXYEAR ->
       gen_raises g = None) /\
      (pub_number < 0 \/ 15 <= pub_number -> gen_raises g = None) /\
      (forall fuel : nat, (15 < fuel)%nat ->
         gen_unfold count_working_days count_wednesdays fuel table_type cache_dir
                    (GenState year pub_number 15) = Some g)) /\
  (forall (d : date) (table_type : string) (cache_dir : option string) (w : world),
      (length (fetched (snd (resolve d table_type cache_dir w))) <=
       length (fetched w) + 15)%nat).
Proof.
  split.
  - intros year pub_number table_type cache_dir g.
    pose proof (gen_urls_budget_15 count_working_days count_wednesdays
                  year pub_number table_type cache_dir) as T.
    cbv zeta in T. fold g in T. destruct T as (H1 & H2 & H3 & H4).
    repeat split; try assumption.
    intros fuel Hf. apply gen_unfold_gen_urls.
    change (Z.to_nat 15) with 15%nat. exact Hf.
  - intros d table_type cache_dir w. unfold get_table, bind, lift.
    destruct (calculate_number _ _ d table_type) as [n|e]; [| simpl; lia].
    pose proof (get_table_loop_fetches urlopen rates read_document
                  (urls (dt_year d) n table_type 15 cache_dir) d w) as H1.
    pose proof (gen_urls_budget_15 count_working_days count_wednesdays
                  (dt_year d) n table_type cache_dir) as [H2 _].
    lia.
Qed.

End ResolverStatements.

(** ** Concrete runs *)

Example rollover_2013_B :
  gen_head (Scenario.gen_urls 2013 0 B 15 None) =
  Some ("http://rss.nbp.pl/kursy/xml2/2012/b/12b052.xml", None).
Proof. vm_compute. reflexivity. Qed.

Example resolve_2012_06_15 :
  fst (Scenario.get_table (Date 2012 6 15) A None Scenario.empty_world) =
  Return (Some (mkTable "115/A/NBP/2012" (Date 2012 6 15)
                        (Some "http://rss.nbp.pl/kursy/xml2/2012/a/12a115.xml") tt)).
Proof. vm_compute. reflexivity. Qed.

Example resolve_unknown_table_type :
  Scenario.get_table (Date 2012 6 15) "c" None Scenario.empty_world =
  (Raise AssertionError, Scenario.empty_world).
Proof. reflexivity. Qed.

(** C1 on the run for 2012-06-15: the table of that very day is accepted. *)
Lemma get_table_never_after_date_witness :
  let t := mkTable "115/A/NBP/2012" (Date 2012 6 15)
                   (Some "http://rss.nbp.pl/kursy/xml2/2012/a/12a115.xml") tt in
  date_gt (publication_date t) (Date 2012 6 15) = false /\
  date_le (publication_date t) (Date 2012 6 15).
Proof.
  intros t.
  apply (proj1 (get_table_never_after_date count_working_days count_wednesdays
                  Scenario.urlopen unit Scenario.read_document)
               (Date 2012 6 15) A None Scenario.empty_world
               (snd (Scenario.get_table (Date 2012 6 15) A None Scenario.empty_world))
               t).
  vm_compute. reflexivity.
Defined.

(** C2 at (2013, 0, B) with the day counters of the calendar. *)
Lemma gen_urls_rolls_over_at_zero_witness :
  exists n,
    Scenario.calculate_number (Date 2012 12 31) B = Return n /\
    gen_head (gen_coords count_working_days count_wednesdays 15 2013 0 B) =
      Some (2012, n) /\
    gen_head (Scenario.gen_urls 2013 0 B 15 None) = Some (build_url 2012 n B None).
Proof.
  apply (gen_urls_rolls_over_at_zero count_working_days count_wednesdays
           14 2013 0 B None).
  - reflexivity.
  - unfold MAXYEAR. lia.
Defined.

(** C10 on a walk of two steps from (2013, 0, B). *)
Lemma gen_urls_yields_no_zero_witness :
  Forall (fun c => 1 <= snd c)
         (gen_items (gen_coords count_working_days count_wednesdays 2 2013 0 B)).
Proof.
  apply (gen_urls_yields_no_zero count_working_days count_wednesdays
           2013 0 B 2 None).
  - lia.
  - intros y m n _ Hin. vm_compute in Hin.
    destruct Hin as [Hin | [Hin | []]]; injection Hin as <- _;
      vm_compute; intros [= <-]; reflexivity.
Defined.

(** C3 as stated fails at the first year of the calendar: from (1, 0) the
    generator raises before it yields anything, and from (1, 2) it yields
    two locations and raises. *)
Lemma gen_urls_raises_before_year_one :
  Scenario.gen_urls 1 0 A 15 None = GRaise OverflowError /\
  gen_items (Scenario.gen_urls 1 0 A 15 None) = [] /\
  length (gen_items (Scenario.gen_urls 1 2 A 15 None)) = 2%nat /\
  gen_raises (Scenario.gen_urls 1 2 A 15 None) = Some OverflowError.
Proof. vm_compute. repeat split. Qed.

(** C3 on the walk from (2012, 120, A). *)
Lemma get_table_at_most_15_fetches_witness :
  length (gen_items (Scenario.gen_urls 2012 120 A 15 None)) = 15%nat.
Proof.
  pose proof (proj1 (get_table_at_most_15_fetches count_working_days
                       count_wednesdays Scenario.urlopen unit
                       Scenario.read_document) 2012 120 A None) as T.
  cbv zeta in T. destruct T as (_ & Hfull & Hcal & _).
  apply Hfull, Hcal; [reflexivity | unfold MAXYEAR; lia].
Defined.

(** C4 as stated fails for a cache file path that is given as the empty
    string: the content comes straight from the network, a handle is
    returned, and no directory and no file exist afterwards.  And an
    exception of [urlopen] that is not a URLError gets out of
    [fetch_data]. *)
Lemma fetch_data_empty_cache_path :
  let r := Scenario.fetch_data "http://rss.nbp.pl/kursy/xml2/2012/a/12a115.xml"
                               (Some "") Scenario.empty_world in
  fst r = Return (Some (Handle 0 "115/A/NBP/2012 2012-06-15")) /\
  dirs (snd r) = ∅ /\ files (snd r) = ∅ /\
  fst (Scenario.fetch_data "http://broken.example/" (Some "/cache/x.xml")
                           Scenario.empty_world) =
  Raise (OtherError "BadStatusLine").
Proof. vm_compute. repeat split. Qed.

(** C4 on a first fetch into an empty cache. *)
Lemma fetch_data_with_cache_witness :
  cache_dirname "/cache/2012/a/12a115.xml" ∈
  dirs (snd (Scenario.fetch_data "http://rss.nbp.pl/kursy/xml2/2012/a/12a115.xml"
                                 (Some "/cache/2012/a/12a115.xml")
                                 Scenario.empty_world)).
Proof.
  assert (Hpath : "/cache/2012/a/12a115.xml" <> "") by discriminate.
  pose proof (fetch_data_with_cache Scenario.urlopen
                "http://rss.nbp.pl/kursy/xml2/2012/a/12a115.xml"
                "/cache/2012/a/12a115.xml" Scenario.empty_world Hpath) as T.
  cbv zeta in T. exact (proj1 T).
Defined.

Example fetch_twice_asks_once :
  let url := "http://rss.nbp.pl/kursy/xml2/2012/a/12a115.xml" in
  let path := Some "/cache/2012/a/12a115.xml" in
  let w1 := snd (Scenario.fetch_data url path Scenario.empty_world) in
  let r2 := Scenario.fetch_data url path w1 in
  requests w1 = [url] /\ requests (snd r2) = [url] /\
  fst r2 = Return (Some (Handle 2 "115/A/NBP/2012 2012-06-15")).
Proof. vm_compute. repeat split. Qed.

(** C5 on the unreadable table 113, with the readable table 112 behind
    it. *)
Lemma get_table_parse_failure_aborts_witness :
  let url := "http://rss.nbp.pl/kursy/xml2/2012/a/12a113.xml" in
  let rest := GYield ("http://rss.nbp.pl/kursy/xml2/2012/a/12a112.xml", None) GStop in
  get_table_loop Scenario.urlopen unit Scenario.read_document
                 (GYield (url, None) rest) (Date 2012 6 6) Scenario.empty_world =
  (Raise (ParseFailure "IndexError"),
   snd (Scenario.fetch_data url None Scenario.empty_world)) /\
  fetched (snd (Scenario.fetch_data url None Scenario.empty_world)) =
  (url, None) :: fetched Scenario.empty_world.
Proof.
  intros url rest.
  apply (proj1 (get_table_parse_failure_aborts Scenario.urlopen unit
                  Scenario.read_document)
               url None rest (Date 2012 6 6) Scenario.empty_world
               (snd (Scenario.fetch_data url None Scenario.empty_world))
               (Handle 0 "<html>") (ParseFailure "IndexError")).
  - vm_compute. reflexivity.
  - reflexivity.
Defined.

Example resolve_2012_06_06_raises :
  fst (Scenario.get_table (Date 2012 6 6) A None Scenario.empty_world) =
  Raise (ParseFailure "IndexError").
Proof. vm_compute. reflexivity. Qed.

(** C7 as stated fails on the path of a parse failure: the handle that the
    fetch of table 113 returned is the only one opened, and no handle is
    closed when [get_table] ends. *)
Lemma get_table_leaves_handle_open :
  let r := Scenario.get_table (Date 2012 6 6) A None Scenario.empty_world in
  fst (Scenario.fetch_data "http://rss.nbp.pl/kursy/xml2/2012/a/12a113.xml" None
                           Scenario.empty_world) =
    Return (Some (Handle 0 "<html>")) /\
  fst r = Raise (ParseFailure "IndexError") /\
  fetched (snd r) = [("http://rss.nbp.pl/kursy/xml2/2012/a/12a113.xml", None)] /\
  issued (snd r) = 1%nat /\
  closed (snd r) = [].
Proof. vm_compute. repeat split. Qed.

(** C7 on the table of 2012-06-15, which is accepted. *)
Lemma get_table_closes_parsed_handle_witness :
  let url := "http://rss.nbp.pl/kursy/xml2/2012/a/12a115.xml" in
  In 0%nat
     (closed (snd (get_table_loop Scenario.urlopen unit Scenario.read_document
                     (GYield (url, None) GStop) (Date 2012 6 15)
                     Scenario.empty_world))).
Proof.
  intros url.
  apply (get_table_closes_parsed_handle Scenario.urlopen unit Scenario.read_document
           url None GStop (Date 2012 6 15) Scenario.empty_world
           (snd (Scenario.fetch_data url None Scenario.empty_world))
           (Handle 0 "115/A/NBP/2012 2012-06-15")
           (mkTable "115/A/NBP/2012" (Date 2012 6 15) (Some url) tt)).
  - vm_compute. reflexivity.
  - reflexivity.
Defined.

(** * Further properties of the module *)

(** ** The calculator and the generator *)

Section GeneratorMore.

Variable count_working_days : date -> Z.
Variable count_wednesdays : date -> Z.

Local Abbreviation calculate := (calculate_number count_working_days count_wednesdays).
Local Abbreviation step := (beginning_of_year count_working_days count_wednesdays).
Local Abbreviation urls_loop := (gen_urls_loop count_working_days count_wednesdays).
Local Abbreviation urls := (gen_urls count_working_days count_wednesdays).
Local Abbreviation coords := (gen_coords count_working_days count_wednesdays).

(** X1. The calculator raises AssertionError exactly for the table types
    outside the list ['a', 'b'], and then nothing else; for the two of the
    list it returns the day counter of the type, so the lookup in the
    dictionary of day counters never fails with KeyError. *)
Theorem calculate_number_outcomes (d : date) (table_type : string) :
  (calculate d table_type = Raise AssertionError <->
   table_type <> A /\ table_type <> B) /\
  (forall e, calculate d table_type = Raise e -> e = AssertionError) /\
  (forall n, calculate d table_type = Return n ->
     (table_type = A /\ n = count_working_days d) \/
     (table_type = B /\ n = count_wednesdays d)).
Proof.
  destruct (str_in table_type TABLE_TYPES) eqn:E.
  - apply str_in_table_types in E as [-> | ->].
    + split; [split; [discriminate | intros [H _]; congruence] |].
      split; [discriminate |]. intros n [= <-]. left. auto.
    + split; [split; [discriminate | intros [_ H]; congruence] |].
      split; [discriminate |]. intros n [= <-]. right. auto.
  - rewrite calculate_number_unknown by exact E.
    split; [split; [intros _ | reflexivity] |].
    + split; intros ->; discriminate E.
    + split; [intros e [= <-]; reflexivity | discriminate].
Qed.

Lemma coords_count_down (budget : nat) (year pub_number : Z) (table_type : string) :
  pub_number < 0 \/ Z.of_nat budget <= pub_number ->
  gen_items (coords budget year pub_number table_type) =
    map (fun i => (year, pub_number - Z.of_nat i)) (seq 0 budget).
Proof.
  revert pub_number.
  induction budget as [|budget IH]; intros pub_number H; [reflexivity |].
  cbn [gen_coords]. rewrite beginning_of_year_keeps by lia.
  cbn [gen_items seq map]. f_equal; [f_equal; lia |].
  rewrite IH by lia. rewrite <- seq_shift, map_map.
  apply map_ext. intros i. f_equal. lia.
Qed.

(** X2. A walk that cannot reach number 0 (it starts below 0, or at least
    as high as the budget) stays in its year and counts down by one: the
    generator yields the locations of the numbers from the start
    downwards, as many as the budget, and ends without raising, whatever
    the year and the table type are. *)
Theorem gen_urls_counts_down_within_year
    (year pub_number : Z) (table_type : string) (gen_number : Z)
    (cache_dir : option string) :
  pub_number < 0 \/ gen_number <= pub_number ->
  gen_items (urls year pub_number table_type gen_number cache_dir) =
    map (fun i => build_url year (pub_number - Z.of_nat i) table_type cache_dir)
        (seq 0 (Z.to_nat gen_number)) /\
  gen_raises (urls year pub_number table_type gen_number cache_dir) = None.
Proof.
  intros H. unfold gen_urls.
  rewrite gen_urls_loop_coords, gen_items_map, gen_raises_map.
  split.
  - rewrite coords_count_down by lia. now rewrite map_map.
  - apply coords_complete_far_from_zero. lia.
Qed.

Lemma coords_head (budget : nat) (year pub_number : Z) (table_type : string)
    (c : Z * Z) (rest : list (Z * Z)) :
  gen_items (coords budget year pub_number table_type) = c :: rest ->
  (pub_number <> 0 /\ c = (year, pub_number)) \/
  (pub_number = 0 /\ fst c = year - 1).
Proof.
  destruct budget as [|budget]; [discriminate |]. cbn [gen_coords].
  destruct (step _ _ _) as [[y n]|e] eqn:Hs; [| discriminate].
  cbn [gen_items]. intros [= <- _].
  apply beginning_of_year_inv in Hs as [(Hne & -> & ->) | (-> & -> & _)]; auto.
Qed.

Lemma coords_steps_back (budget : nat) (year pub_number : Z) (table_type : string) :
  Sorted steps_back (gen_items (coords budget year pub_number table_type)).
Proof.
  revert year pub_number.
  induction budget as [|budget IH]; intros year pub_number; [constructor |].
  cbn [gen_coords].
  destruct (step _ _ _) as [[y n]|e]; cbn [gen_items]; [| constructor].
  constructor; [apply IH |].
  destruct (gen_items (coords budget y (n - 1) table_type)) as [|c rest] eqn:E;
    constructor.
  apply coords_head in E as [(Hne & ->) | (Hz & Hy)]; unfold steps_back; simpl.
  - left. repeat split; lia.
  - right. split; lia.
Qed.

Lemma steps_back_earlier (c c' : Z * Z) : steps_back c c' -> earlier c c'.
Proof. unfold steps_back, earlier. lia. Qed.

Lemma earlier_trans (a b c : Z * Z) : earlier a b -> earlier b c -> earlier a c.
Proof. unfold earlier. lia. Qed.

Lemma sorted_earlier_strongly (l : list (Z * Z)) :
  Sorted steps_back l -> StronglySorted earlier l.
Proof.
  intros H. apply Sorted_StronglySorted.
  - intros a b c. apply earlier_trans.
  - induction H as [|a l Hl IH Hh]; constructor; [exact IH |].
    destruct Hh; constructor. now apply steps_back_earlier.
Qed.

Lemma strongly_sorted_earlier_nodup (l : list (Z * Z)) :
  StronglySorted earlier l -> List.NoDup l.
Proof.
  induction 1 as [|a l Hl IH Ha]; constructor; [| exact IH].
  intros Hin. rewrite List.Forall_forall in Ha.
  specialize (Ha a Hin). unfold earlier in Ha. lia.
Qed.

(** X3. The locations that the generator yields are those of coordinates
    that follow one another without a gap and without a return: each is
    the number before in the same year, or is in the year before when
    number 1 has just been visited; each is earlier than all the ones
    before it, and no coordinate comes twice. *)
Theorem gen_urls_walks_backwards
    (year pub_number : Z) (table_type : string) (gen_number : Z)
    (cache_dir : option string) :
  let cs := gen_items (coords (Z.to_nat gen_number) year pub_number table_type) in
  gen_items (urls year pub_number table_type gen_number cache_dir) =
    map (fun c => build_url (fst c) (snd c) table_type cache_dir) cs /\
  Sorted steps_back cs /\ StronglySorted earlier cs /\ List.NoDup cs.
Proof.
  intros cs.
  pose proof (coords_steps_back (Z.to_nat gen_number) year pub_number table_type)
    as H.
  split; [unfold gen_urls; rewrite gen_urls_loop_coords; apply gen_items_map |].
  split; [exact H |].
  split; [now apply sorted_earlier_strongly |].
  now apply strongly_sorted_earlier_nodup, sorted_earlier_strongly.
Qed.

End GeneratorMore.

(** ** The URL builder, further *)

Lemma short_year_four_digits (year : Z) :
  1000 <= year <= 9999 ->
  slice_from_2 (str_int year) = rjust 2 "0" (str_int (year mod 100)).
Proof.
  intros H.
  assert (Hall : forallb (fun k => String.eqb
                            (slice_from_2 (str_int (1000 + Z.of_nat k)))
                            (rjust 2 "0" (str_int ((1000 + Z.of_nat k) mod 100))))
                         (seq 0 (Z.to_nat 9000)) = true) by (vm_compute; reflexivity).
  rewrite forallb_forall in Hall.
  specialize (Hall (Z.to_nat (year - 1000))).
  replace (1000 + Z.of_nat (Z.to_nat (year - 1000))) with year in Hall by lia.
  apply String.eqb_eq, Hall, in_seq. lia.
Qed.

Lemma short_year_two_digits (year : Z) :
  0 <= year < 100 -> slice_from_2 (str_int year) = "".
Proof.
  intros H.
  assert (Hall : forallb (fun k => String.eqb (slice_from_2 (str_int (Z.of_nat k))) "")
                         (seq 0 100) = true) by (vm_compute; reflexivity).
  rewrite forallb_forall in Hall.
  specialize (Hall (Z.to_nat year)).
  rewrite Z2Nat.id in Hall by lia.
  apply String.eqb_eq, Hall, in_seq. lia.
Qed.

(** X4. The short year of a file name is what is left of the decimal
    writing of the year after its first two characters: for a year of four
    digits these are its last two digits, with the zero kept (2005 gives
    05); for a year below 100 nothing is left, and the file name starts
    with the table type. *)
Theorem build_url_short_year
    (year pub_number : Z) (table_type : string) (cache_dir : option string) :
  (1000 <= year <= 9999 ->
   fst (build_url year pub_number table_type cache_dir) =
   NBP_CURRENCY_TABLE_URL_PREFIX ++ str_int year ++ "/" ++ table_type ++ "/" ++
   rjust 2 "0" (str_int (year mod 100)) ++ table_type ++ pub_field pub_number ++
   ".xml") /\
  (0 <= year < 100 ->
   fst (build_url year pub_number table_type cache_dir) =
   NBP_CURRENCY_TABLE_URL_PREFIX ++ str_int year ++ "/" ++ table_type ++ "/" ++
   table_type ++ pub_field pub_number ++ ".xml").
Proof.
  split; intros H; unfold build_url, url_path, NBP_CURRENCY_TABLE_URL_PATTERN;
    cbn [fst].
  - now rewrite short_year_four_digits.
  - now rewrite short_year_two_digits.
Qed.

Lemma build_url_short_year_witness :
  fst (build_url 2005 7 A None) =
  NBP_CURRENCY_TABLE_URL_PREFIX ++ str_int 2005 ++ "/" ++ A ++ "/" ++
  rjust 2 "0" (str_int (2005 mod 100)) ++ A ++ pub_field 7 ++ ".xml".
Proof. apply (proj1 (build_url_short_year 2005 7 A None)). lia. Defined.

Example build_url_2005 :
  fst (build_url 2005 7 A None) = "http://rss.nbp.pl/kursy/xml2/2005/a/05a007.xml".
Proof. reflexivity. Qed.

Lemma str_app_not_empty (s t : string) : s <> "" -> String.eqb (s ++ t) "" = false.
Proof. destruct s; [congruence | reflexivity]. Qed.

Lemma build_url_truthy
    (year pub_number : Z) (table_type : string) (cache_dir : option string) :
  truthy (snd (build_url year pub_number table_type cache_dir)) = truthy cache_dir.
Proof.
  unfold build_url. cbn [snd]. destruct cache_dir as [d|]; [| reflexivity].
  destruct (truthy (Some d)) eqn:E; [| reflexivity].
  cbn [truthy] in *. apply negb_true_iff in E. apply String.eqb_neq in E.
  unfold os_path_join. rewrite url_path_relative.
  destruct (_ || _); rewrite str_app_not_empty by exact E; reflexivity.
Qed.

(** X5. The location that [build_url] gives has a cache path that counts
    as true exactly when the cache directory does: a path built below a
    directory that is not empty is never the empty string, so that
    [fetch_data] uses the cache for it; and the url is the same with and
    without a cache directory. *)
Theorem build_url_cache_path_truth
    (year pub_number : Z) (table_type : string) (cache_dir : option string) :
  truthy (snd (build_url year pub_number table_type cache_dir)) = truthy cache_dir /\
  fst (build_url year pub_number table_type cache_dir) =
  fst (build_url year pub_number table_type None).
Proof. split; [apply build_url_truthy | reflexivity]. Qed.

(** ** Download and fetch, further *)

Section FetchMore.

Variable urlopen : list string -> string -> urlopen_result.

Local Abbreviation net_download := (download urlopen).
Local Abbreviation net_fetch := (fetch_data urlopen).

(** X6. [download] asks the network exactly once and leaves the file
    system and the closed handles alone; it gives a handle exactly when
    [urlopen] gives a response whose status is 200, and the handle reads
    the body of that response; it never raises URLError, and what it
    raises is what [urlopen] raised. *)
Theorem download_outcomes (url : string) (w : world) :
  let r := net_download url w in
  requests (snd r) = url :: requests w /\
  dirs (snd r) = dirs w /\ files (snd r) = files w /\
  closed (snd r) = closed w /\
  ((exists h, fst r = Return (Some h)) <->
   (exists resp, urlopen (requests w) url = Opened resp /\
                 getcode resp = Some 200)) /\
  (forall h, fst r = Return (Some h) ->
     exists resp, urlopen (requests w) url = Opened resp /\
                  h_content h = body resp) /\
  fst r <> Raise URLError /\
  (forall e, fst r = Raise e -> urlopen (requests w) url = Failed e).
Proof.
  intros r. subst r.
  pose proof (download_frame urlopen url w) as F. cbv zeta in F.
  destruct F as (Hd & Hf & Hc & _ & Hr & _).
  rewrite download_result.
  repeat split; try assumption.
  - intros [h Hh]. destruct (urlopen (requests w) url) as [resp|e].
    + exists resp. split; [reflexivity |].
      case_bool_decide; [assumption | discriminate].
    + destruct e; discriminate.
  - intros (resp & -> & Hcode). rewrite bool_decide_eq_true_2 by exact Hcode. eauto.
  - intros h. destruct (urlopen (requests w) url) as [resp|e].
    + case_bool_decide; [| discriminate]. intros [= <-]. eauto.
    + destruct e; discriminate.
  - destruct (urlopen (requests w) url) as [resp|e].
    + case_bool_decide; discriminate.
    + destruct e; discriminate.
  - intros e. destruct (urlopen (requests w) url) as [resp|e0].
    + case_bool_decide; discriminate.
    + destruct e0; intros [= <-]; reflexivity || discriminate.
Qed.

(** X7. With no cache path, or with the empty string for one,
    [fetch_data] is [download]: it returns what [download] returns, asks
    the network once, and does not touch the directories or the files. *)
Theorem fetch_data_without_cache (url : string) (cache_file_path : option string)
    (w : world) :
  truthy cache_file_path = false ->
  let r := net_fetch url cache_file_path w in
  fst r = fst (net_download url w) /\
  requests (snd r) = url :: requests w /\
  dirs (snd r) = dirs w /\ files (snd r) = files w.
Proof.
  intros Ht r. subst r. rewrite fetch_data_uncached_run by exact Ht.
  set (w0 := World _ _ _ _ _ _).
  pose proof (download_frame urlopen url w0) as F. cbv zeta in F.
  destruct F as (Hd & Hf & _ & _ & Hr & _).
  rewrite !download_result. repeat split; assumption.
Qed.

(** One call of [fetch_data] asks the network at most once and never takes
    anything away from the cache. *)
Lemma fetch_data_keeps_cache (url : string) (cache_file_path : option string)
    (w : world) :
  let w' := snd (net_fetch url cache_file_path w) in
  dirs w ⊆ dirs w' /\
  (forall q c, files w !! q = Some c -> files w' !! q = Some c) /\
  (forall q, cache_file_path <> Some q -> files w' !! q = files w !! q) /\
  (length (requests w') <= S (length (requests w)))%nat.
Proof.
  intros w'. subst w'.
  destruct (truthy cache_file_path) eqn:Ht.
  - destruct cache_file_path as [path|]; [| discriminate].
    assert (Hpath : path <> "").
    { intros ->. discriminate Ht. }
    rewrite fetch_data_cached_run by exact Hpath. cbv zeta.
    assert (Hsub : dirs w ⊆ with_cache_dir path w).
    { unfold with_cache_dir. case_bool_decide; set_solver. }
    destruct (files w !! path) as [content|] eqn:E.
    + simpl. repeat split; auto.
    + destruct (urlopen (requests w) url) as [resp|e];
        [case_bool_decide |]; simpl; repeat split; auto.
      * intros q c Hq. rewrite lookup_insert_ne; [exact Hq | congruence].
      * intros q Hq. rewrite lookup_insert_ne; [reflexivity | congruence].
  - rewrite fetch_data_uncached_run by exact Ht.
    set (w0 := World _ _ _ _ _ _).
    pose proof (download_frame urlopen url w0) as F. cbv zeta in F.
    destruct F as (Hd & Hf & _ & _ & Hr & _).
    rewrite Hd, Hf, Hr. simpl. repeat split; auto.
Qed.

(** X8. The cache only grows under [fetch_data]: every directory stays,
    every file that existed stays with the content it had (a cached
    publication is never fetched anew or written over), and no file but
    the one of the cache path given is created. *)
Theorem fetch_data_cache_only_grows (url : string)
    (cache_file_path : option string) (w : world) :
  let w' := snd (net_fetch url cache_file_path w) in
  dirs w ⊆ dirs w' /\
  (forall q c, files w !! q = Some c -> files w' !! q = Some c) /\
  (forall q, cache_file_path <> Some q -> files w' !! q = files w !! q).
Proof.
  intros w'. subst w'.
  pose proof (fetch_data_keeps_cache url cache_file_path w) as H.
  cbv zeta in H. tauto.
Qed.

End FetchMore.

(** ** The resolver, further *)

Section ResolverMore.

Variable count_working_days : date -> Z.
Variable count_wednesdays : date -> Z.
Variable urlopen : list string -> string -> urlopen_result.
Variable rates : Type.
Variable read_document : string -> outcome (string * date * rates).

Local Abbreviation calculate := (calculate_number count_working_days count_wednesdays).
Local Abbreviation urls := (gen_urls count_working_days count_wednesdays).
Local Abbreviation coords := (gen_coords count_working_days count_wednesdays).
Local Abbreviation net_fetch := (fetch_data urlopen).
Local Abbreviation read := (parse rates read_document).
Local Abbreviation resolve_loop := (get_table_loop urlopen rates read_document).
Local Abbreviation resolve :=
  (get_table count_working_days count_wednesdays urlopen rates read_document).


(** The loop gives the absent result only at the end of a generator that
    did not raise, every location of which was fetched. *)
Lemma get_table_loop_absent (g : gen location) (d : date) (w w' : world) :
  resolve_loop g d w = (Return None, w') ->
  gen_raises g = None /\
  length (fetched w') = (length (fetched w) + length (gen_items g))%nat.
Proof.
  revert w. induction g as [| e | [u cfp] rest IH]; intros w.
  - intros [= <-]. simpl. split; [reflexivity | lia].
  - discriminate.
  - rewrite get_table_loop_step.
    pose proof (fetch_data_fetched urlopen u cfp w) as Hf.
    destruct (net_fetch u cfp w) as [[[h|]|e] w1]; simpl in Hf.
    + destruct (read h (Some u)) as [table|e]; [| discriminate].
      destruct (date_gt (publication_date table) d); [| discriminate].
      intros H. apply IH in H as [H1 H2]. simpl in *. rewrite Hf in H2.
      simpl in H2. split; [exact H1 | lia].
    + intros H. apply IH in H as [H1 H2]. rewrite Hf in H2. simpl in *.
      split; [exact H1 | lia].
    + discriminate.
Qed.


(** The loop never takes anything away from the cache, and asks the
    network at most once for each location. *)
Lemma get_table_loop_keeps_cache (g : gen location) (d : date) (w : world) :
  let w' := snd (resolve_loop g d w) in
  dirs w ⊆ dirs w' /\
  (forall q c, files w !! q = Some c -> files w' !! q = Some c) /\
  (length (requests w') <= length (requests w) + length (gen_items g))%nat.
Proof.
  clear count_working_days count_wednesdays.
  revert w. induction g as [| e | [u cfp] rest IH]; intros w.
  - simpl. repeat split; auto. lia.
  - simpl. repeat split; auto. lia.
  - cbv zeta. rewrite get_table_loop_step.
    pose proof (fetch_data_keeps_cache urlopen u cfp w) as F. cbv zeta in F.
    destruct F as (Fd & Ff & _ & Fr).
    destruct (net_fetch u cfp w) as [[[h|]|e] w1]; simpl in Fd, Ff, Fr.
    + destruct (read h (Some u)) as [table|e].
      * destruct (date_gt (publication_date table) d).
        -- specialize (IH (after_close h w1)). cbv zeta in IH. simpl in IH.
           destruct IH as (Id & If & Ir). cbn [gen_items length].
           repeat split; [set_solver | auto | lia].
        -- simpl. repeat split; auto. lia.
      * simpl. repeat split; auto. lia.
    + specialize (IH w1). cbv zeta in IH. destruct IH as (Id & If & Ir).
      cbn [gen_items length]. repeat split; [set_solver | auto | lia].
    + simpl. repeat split; auto. lia.
Qed.

(** Without cache paths the loop leaves the file system as it was. *)
Lemma get_table_loop_no_cache (g : gen location) (d : date) (w : world) :
  Forall (fun l => truthy (snd l) = false) (gen_items g) ->
  dirs (snd (resolve_loop g d w)) = dirs w /\
  files (snd (resolve_loop g d w)) = files w.
Proof.
  revert w. induction g as [| e | [u cfp] rest IH]; intros w Hall.
  - simpl. auto.
  - simpl. auto.
  - cbn [gen_items] in Hall. apply Forall_cons_iff in Hall as [Ht Hall].
    simpl in Ht. rewrite get_table_loop_step.
    assert (F : dirs (snd (net_fetch u cfp w)) = dirs w /\
                files (snd (net_fetch u cfp w)) = files w).
    { rewrite fetch_data_uncached_run by exact Ht.
      set (w0 := World _ _ _ _ _ _).
      pose proof (download_frame urlopen u w0) as F. cbv zeta in F.
      destruct F as (Hd & Hf & _). rewrite Hd, Hf. auto. }
    destruct F as [Fd Ff].
    destruct (net_fetch u cfp w) as [[[h|]|e] w1]; simpl in Fd, Ff.
    + destruct (read h (Some u)) as [table|e].
      * destruct (date_gt (publication_date table) d).
        -- destruct (IH (after_close h w1) Hall) as [Id If].
           rewrite Id, If. simpl. auto.
        -- simpl. auto.
      * simpl. auto.
    + destruct (IH w1 Hall) as [Id If]. rewrite Id, If. auto.
    + simpl. auto.
Qed.

End ResolverMore.

Section ResolverMoreStatements.

Variable count_working_days : date -> Z.
Variable count_wednesdays : date -> Z.
Variable urlopen : list string -> string -> urlopen_result.
Variable rates : Type.
Variable read_document : string -> outcome (string * date * rates).

Local Abbreviation calculate := (calculate_number count_working_days count_wednesdays).
Local Abbreviation urls := (gen_urls count_working_days count_wednesdays).
Local Abbreviation coords := (gen_coords count_working_days count_wednesdays).
Local Abbreviation net_fetch := (fetch_data urlopen).
Local Abbreviation resolve_loop := (get_table_loop urlopen rates read_document).
Local Abbreviation resolve :=
  (get_table count_working_days count_wednesdays urlopen rates read_document).

Lemma get_table_unfold (d : date) (table_type : string) (cache_dir : option string)
    (w : world) :
  resolve d table_type cache_dir w =
  match calculate d table_type with
  | Return n => resolve_loop (urls (dt_year d) n table_type 15 cache_dir) d w
  | Raise e => (Raise e, w)
  end.
Proof.
  unfold get_table, bind, lift.
  destruct (calculate d table_type); reflexivity.
Qed.

Lemma gen_urls_items (year n : Z) (table_type : string) (gen_number : Z)
    (cache_dir : option string) :
  gen_items (urls year n table_type gen_number cache_dir) =
  map (fun c => build_url (fst c) (snd c) table_type cache_dir)
      (gen_items (coords (Z.to_nat gen_number) year n table_type)).
Proof. unfold gen_urls. rewrite gen_urls_loop_coords. apply gen_items_map. Qed.

Lemma gen_urls_items_no_cache (year n : Z) (table_type : string) (gen_number : Z)
    (cache_dir : option string) :
  truthy cache_dir = false ->
  Forall (fun l => truthy (snd l) = false)
         (gen_items (urls year n table_type gen_number cache_dir)).
Proof.
  intros Ht. rewrite gen_urls_items. apply List.Forall_forall.
  intros l Hin. apply in_map_iff in Hin as (c & <- & _).
  now rewrite build_url_truthy.
Qed.

(** X9. [get_table] gives the absent result only when the search is used
    up: the generator went through its 15 locations without raising and
    every one of them was fetched. *)
Theorem get_table_absent_means_exhausted
    (d : date) (table_type : string) (cache_dir : option string) (w w' : world) :
  resolve d table_type cache_dir w = (Return None, w') ->
  length (fetched w') = (length (fetched w) + 15)%nat /\
  exists n,
    calculate d table_type = Return n /\
    gen_raises (urls (dt_year d) n table_type 15 cache_dir) = None /\
    fetched w' =
      (rev (gen_items (urls (dt_year d) n table_type 15 cache_dir)) ++ fetched w)%list.
Proof.
  rewrite get_table_unfold.
  destruct (calculate d table_type) as [n|e]; [| discriminate].
  intros H.
  assert (Hlog : fetched w' =
            (rev (gen_items (urls (dt_year d) n table_type 15 cache_dir)) ++
             fetched w)%list).
  { revert w H. generalize (urls (dt_year d) n table_type 15 cache_dir) as g.
    induction g as [| e | [u cfp] rest IH]; intros w.
    - intros [= <-]. reflexivity.
    - discriminate.
    - rewrite get_table_loop_step.
      pose proof (fetch_data_fetched urlopen u cfp w) as Hf.
      destruct (net_fetch u cfp w) as [[[h|]|e] w1]; simpl in Hf.
      + destruct (parse rates read_document h (Some u)) as [table|e];
          [| discriminate].
        destruct (date_gt (publication_date table) d); [| discriminate].
        intros H. apply IH in H. simpl in H. rewrite Hf in H.
        cbn [gen_items rev]. rewrite <- app_assoc. exact H.
      + intros H. apply IH in H. rewrite Hf in H.
        cbn [gen_items rev]. rewrite <- app_assoc. exact H.
      + discriminate. }
  apply get_table_loop_absent in H as [Hr Hl].
  pose proof (gen_urls_budget_15 count_working_days count_wednesdays
                (dt_year d) n table_type cache_dir) as T.
  cbv zeta in T. destruct T as (_ & Hfull & _).
  rewrite (Hfull Hr) in Hl. split; [exact Hl |].
  exists n. auto.
Qed.


(** X11. Whatever [get_table] does and however it ends, it asks the
    network at most 15 times, every directory of the cache stays, and
    every file of the cache stays with the content it had. *)
Theorem get_table_keeps_cache
    (d : date) (table_type : string) (cache_dir : option string) (w : world) :
  let w' := snd (resolve d table_type cache_dir w) in
  (length (requests w') <= length (requests w) + 15)%nat /\
  dirs w ⊆ dirs w' /\
  (forall q c, files w !! q = Some c -> files w' !! q = Some c).
Proof.
  cbv zeta. rewrite get_table_unfold.
  destruct (calculate d table_type) as [n|e]; [| simpl; repeat split; auto; lia].
  pose proof (get_table_loop_keeps_cache urlopen rates read_document
                (urls (dt_year d) n table_type 15 cache_dir) d w) as H.
  cbv zeta in H. destruct H as (Hd & Hf & Hr).
  pose proof (gen_urls_budget_15 count_working_days count_wednesdays
                (dt_year d) n table_type cache_dir) as T.
  cbv zeta in T. destruct T as (Hle & _).
  repeat split; [lia | exact Hd | exact Hf].
Qed.

(** X12. Without a cache directory (none given, or the empty string)
    [get_table] leaves the directories and the files as they were. *)
Theorem get_table_without_cache_dir
    (d : date) (table_type : string) (cache_dir : option string) (w : world) :
  truthy cache_dir = false ->
  dirs (snd (resolve d table_type cache_dir w)) = dirs w /\
  files (snd (resolve d table_type cache_dir w)) = files w.
Proof.
  intros Ht. rewrite get_table_unfold.
  destruct (calculate d table_type) as [n|e]; [| simpl; auto].
  apply get_table_loop_no_cache. now apply gen_urls_items_no_cache.
Qed.

End ResolverMoreStatements.

Section NetworkDown.

Variable count_working_days : date -> Z.
Variable count_wednesdays : date -> Z.
Variable urlopen : list string -> string -> urlopen_result.
Variable rates : Type.
Variable read_document : string -> outcome (string * date * rates).

Local Abbreviation calculate := (calculate_number count_working_days count_wednesdays).
Local Abbreviation urls := (gen_urls count_working_days count_wednesdays).
Local Abbreviation net_fetch := (fetch_data urlopen).
Local Abbreviation resolve_loop := (get_table_loop urlopen rates read_document).
Local Abbreviation resolve :=
  (get_table count_working_days count_wednesdays urlopen rates read_document).

Hypothesis down : forall history u, urlopen history u = Failed URLError.




End NetworkDown.

(** ** The search over the table types *)

Section ExchangeFacts.

Variable count_working_days : date -> Z.
Variable count_wednesdays : date -> Z.
Variable urlopen : list string -> string -> urlopen_result.
Variable rates : Type.
Variable read_document : string -> outcome (string * date * rates).
Variable currency_obj : Type.
Variable currency_dict : Type.
Variable table_get : Table rates -> string -> outcome currency_obj.
Variable to_dict : currency_obj -> outcome currency_dict.
Variable table_true : Table rates -> bool.
Variable table_contains : Table rates -> string -> bool.
Variable strftime : date -> outcome string.

Local Abbreviation resolve :=
  (get_table count_working_days count_wednesdays urlopen rates read_document).
Local Abbreviation format :=
  (format_result rates currency_obj currency_dict table_get to_dict strftime).
Local Abbreviation search_loop :=
  (download_exchange_rate_loop count_working_days count_wednesdays urlopen rates
     read_document currency_obj currency_dict table_get to_dict table_true
     table_contains strftime).
Local Abbreviation search :=
  (download_exchange_rate count_working_days count_wednesdays urlopen rates
     read_document currency_obj currency_dict table_get to_dict table_true
     table_contains strftime).

(** One turn of the loop over the table types. *)
Lemma download_exchange_rate_loop_step (table_type : string) (rest : list string)
    (d : date) (currency : string) (cache_dir : option string) (w : world) :
  search_loop (table_type :: rest) d currency cache_dir w =
  match resolve d table_type cache_dir w with
  | (Raise e, w1) => (Raise e, w1)
  | (Return None, w1) => search_loop rest d currency cache_dir w1
  | (Return (Some t), w1) =>
      if table_true t && table_contains t currency then
        match format t currency d with
        | Return r => (Return (Some r), w1)
        | Raise e => (Raise e, w1)
        end
      else search_loop rest d currency cache_dir w1
  end.
Proof.
  cbn [download_exchange_rate_loop]. unfold bind at 1.
  destruct (resolve d table_type cache_dir w) as [[[t|]|e] w1]; try reflexivity.
  destruct (table_true t && table_contains t currency); [| reflexivity].
  unfold bind, lift, ret. destruct (format t currency d); reflexivity.
Qed.

Lemma format_result_fields (t : Table rates) (currency : string) (d : date)
    (r : result currency_dict) :
  format t currency d = Return r ->
  r_table_no r = no t /\ r_url r = url t /\
  strftime d = Return (r_search_date r) /\
  strftime (publication_date t) = Return (r_pub_date r) /\
  exists c, table_get t currency = Return c /\ to_dict c = Return (r_currency r).
Proof.
  unfold format_result.
  destruct (table_get t currency) as [c|]; [| discriminate].
  destruct (strftime d) as [sd|]; [| discriminate].
  destruct (strftime (publication_date t)) as [pd|]; [| discriminate].
  destruct (to_dict c) as [cd|] eqn:E; [| discriminate].
  intros [= <-]. simpl. repeat split. exists c. split; [reflexivity | exact E].
Qed.

Lemma get_table_fetches_le (d : date) (table_type : string)
    (cache_dir : option string) (w : world) :
  (length (fetched (snd (resolve d table_type cache_dir w))) <=
   length (fetched w) + 15)%nat.
Proof.
  rewrite get_table_unfold.
  destruct (calculate_number _ _ d table_type) as [n|e]; [| simpl; lia].
  pose proof (get_table_loop_fetches urlopen rates read_document
                (gen_urls count_working_days count_wednesdays
                          (dt_year d) n table_type 15 cache_dir) d w) as H1.
  pose proof (gen_urls_budget_15 count_working_days count_wednesdays
                (dt_year d) n table_type cache_dir) as [H2 _].
  lia.
Qed.

Lemma get_table_in_time (d : date) (table_type : string)
    (cache_dir : option string) (w w' : world) (t : Table rates) :
  resolve d table_type cache_dir w = (Return (Some t), w') ->
  date_le (publication_date t) d.
Proof.
  rewrite get_table_unfold.
  destruct (calculate_number _ _ d table_type) as [n|e]; [| discriminate].
  intros H. apply date_gt_false_iff.
  eapply get_table_loop_accepts_in_time. exact H.
Qed.

(** X14. [download_exchange_rate] asks table type 'a' first. A table of
    type 'a' that is true and holds the currency is formatted and returned
    in the world that the search of 'a' left: nothing is fetched for 'b'.
    An exception of the search of 'a' ends the call, and 'b' is not
    tried. Only when 'a' gives nothing, or a table without the currency,
    the search of 'b' starts, from the world that 'a' left. *)
Theorem download_exchange_rate_order
    (d : date) (currency : string) (cache_dir : option string) (w : world) :
  (forall t w1,
      resolve d A cache_dir w = (Return (Some t), w1) ->
      table_true t && table_contains t currency = true ->
      search d currency cache_dir w =
      (match format t currency d with
       | Return r => Return (Some r)
       | Raise e => Raise e
       end, w1)) /\
  (forall e w1,
      resolve d A cache_dir w = (Raise e, w1) ->
      search d currency cache_dir w = (Raise e, w1)) /\
  (forall o w1,
      resolve d A cache_dir w = (Return o, w1) ->
      (forall t, o = Some t -> table_true t && table_contains t currency = false) ->
      search d currency cache_dir w = search_loop [B] d currency cache_dir w1).
Proof.
  unfold download_exchange_rate, TABLE_TYPES.
  split; [| split].
  - intros t w1 H Hu. rewrite download_exchange_rate_loop_step, H, Hu.
    destruct (format t currency d); reflexivity.
  - intros e w1 H. now rewrite download_exchange_rate_loop_step, H.
  - intros o w1 H Hu. rewrite download_exchange_rate_loop_step, H.
    destruct o as [t|]; [| reflexivity]. now rewrite (Hu t eq_refl).
Qed.

Lemma download_exchange_rate_loop_sound (types : list string) (d : date)
    (currency : string) (cache_dir : option string) (w w' : world)
    (r : result currency_dict) :
  search_loop types d currency cache_dir w = (Return (Some r), w') ->
  exists table_type t w0,
    In table_type types /\
    resolve d table_type cache_dir w0 = (Return (Some t), w') /\
    table_true t = true /\ table_contains t currency = true /\
    format t currency d = Return r.
Proof.
  revert w. induction types as [|table_type rest IH]; intros w.
  - discriminate.
  - rewrite download_exchange_rate_loop_step.
    destruct (resolve d table_type cache_dir w) as [[[t|]|e] w1] eqn:Hr.
    + destruct (table_true t && table_contains t currency) eqn:Hu.
      * destruct (format t currency d) as [r0|e] eqn:Hf; [| discriminate].
        intros [= <- <-]. apply andb_true_iff in Hu as [Hu1 Hu2].
        exists table_type, t, w. split; [now left | auto].
      * intros H. apply IH in H as (tt & t' & w0 & Hin & Hrest).
        exists tt, t', w0. split; [now right | exact Hrest].
    + intros H. apply IH in H as (tt & t' & w0 & Hin & Hrest).
      exists tt, t', w0. split; [now right | exact Hrest].
    + discriminate.
Qed.

(** X15. What [download_exchange_rate] returns is the formatting of a
    table that [get_table] returned for 'a' or for 'b', in the world in
    which the call ends: the table is true, holds the currency, and has a
    publication date not after the date asked for; the number and the url
    of the result are those of the table. *)
Theorem download_exchange_rate_sound
    (d : date) (currency : string) (cache_dir : option string) (w w' : world)
    (r : result currency_dict) :
  search d currency cache_dir w = (Return (Some r), w') ->
  exists table_type t w0,
    (table_type = A \/ table_type = B) /\
    resolve d table_type cache_dir w0 = (Return (Some t), w') /\
    table_true t = true /\ table_contains t currency = true /\
    date_le (publication_date t) d /\
    format t currency d = Return r /\
    r_table_no r = no t /\ r_url r = url t.
Proof.
  intros H. apply download_exchange_rate_loop_sound in H
    as (tt & t & w0 & Hin & Hr & Ht & Hc & Hf).
  exists tt, t, w0.
  split; [simpl in Hin; intuition auto |].
  split; [exact Hr |]. split; [exact Ht |]. split; [exact Hc |].
  split; [eapply get_table_in_time; exact Hr |].
  split; [exact Hf |].
  apply format_result_fields in Hf. tauto.
Qed.

Lemma download_exchange_rate_loop_bounds (types : list string) (d : date)
    (currency : string) (cache_dir : option string) (w : world) :
  let w' := snd (search_loop types d currency cache_dir w) in
  (length (fetched w') <= length (fetched w) + 15 * length types)%nat /\
  (length (requests w') <= length (requests w) + 15 * length types)%nat /\
  dirs w ⊆ dirs w' /\
  (forall q c, files w !! q = Some c -> files w' !! q = Some c).
Proof.
  revert w. induction types as [|table_type rest IH]; intros w.
  - simpl. repeat split; auto; lia.
  - cbv zeta. rewrite download_exchange_rate_loop_step.
    pose proof (get_table_fetches_le d table_type cache_dir w) as Hf.
    pose proof (get_table_loop_keeps_cache urlopen rates read_document) as K.
    assert (Hk : (length (requests (snd (resolve d table_type cache_dir w))) <=
                  length (requests w) + 15)%nat /\
                 dirs w ⊆ dirs (snd (resolve d table_type cache_dir w)) /\
                 (forall q c, files w !! q = Some c ->
                    files (snd (resolve d table_type cache_dir w)) !! q = Some c)).
    { rewrite get_table_unfold.
      destruct (calculate_number _ _ d table_type) as [n|e];
        [| simpl; repeat split; auto; lia].
      specialize (K (gen_urls count_working_days count_wednesdays
                              (dt_year d) n table_type 15 cache_dir) d w).
      cbv zeta in K. destruct K as (Kd & Kf & Kr).
      pose proof (gen_urls_budget_15 count_working_days count_wednesdays
                    (dt_year d) n table_type cache_dir) as [H2 _].
      repeat split; [lia | exact Kd | exact Kf]. }
    destruct Hk as (Hr & Hd & Hfl).
    cbn [length].
    destruct (resolve d table_type cache_dir w) as [[[t|]|e] w1];
      cbn [snd] in Hf, Hr, Hd, Hfl.
    + destruct (table_true t && table_contains t currency).
      * destruct (format t currency d); cbn [snd]; repeat split; auto; lia.
      * specialize (IH w1). cbv zeta in IH. destruct IH as (I1 & I2 & I3 & I4).
        repeat split; [lia | lia | etrans; eassumption | auto].
    + specialize (IH w1). cbv zeta in IH. destruct IH as (I1 & I2 & I3 & I4).
      repeat split; [lia | lia | etrans; eassumption | auto].
    + cbn [snd]. repeat split; auto; lia.
Qed.

(** X16. One call of [download_exchange_rate] fetches at most 30 times and
    asks the network at most 30 times, 15 for each of the two table
    types, and takes nothing away from the cache: the directories stay
    and the files stay with their content. *)
Theorem download_exchange_rate_bounds
    (d : date) (currency : string) (cache_dir : option string) (w : world) :
  let w' := snd (search d currency cache_dir w) in
  (length (fetched w') <= length (fetched w) + 30)%nat /\
  (length (requests w') <= length (requests w) + 30)%nat /\
  dirs w ⊆ dirs w' /\
  (forall q c, files w !! q = Some c -> files w' !! q = Some c).
Proof.
  pose proof (download_exchange_rate_loop_bounds TABLE_TYPES d currency
                cache_dir w) as H.
  exact H.
Qed.

End ExchangeFacts.

(** ** Concrete runs, further *)

(** X2 on three steps down from (2012, 120). *)
Lemma gen_urls_counts_down_within_year_witness :
  gen_items (Scenario.gen_urls 2012 120 A 3 None) =
    map (fun i => build_url 2012 (120 - Z.of_nat i) A None) (seq 0 (Z.to_nat 3)) /\
  gen_raises (Scenario.gen_urls 2012 120 A 3 None) = None.
Proof.
  apply (gen_urls_counts_down_within_year count_working_days count_wednesdays
           2012 120 A 3 None).
  right. lia.
Defined.

(** X7 on a fetch with no cache path. *)
Lemma fetch_data_without_cache_witness :
  let url := "http://rss.nbp.pl/kursy/xml2/2012/a/12a115.xml" in
  files (snd (Scenario.fetch_data url None Scenario.empty_world)) =
  files Scenario.empty_world.
Proof.
  intros url.
  pose proof (fetch_data_without_cache Scenario.urlopen url None
                Scenario.empty_world eq_refl) as T.
  cbv zeta in T. apply T.
Defined.

(** X9 on the search for 2012-01-31, for which the server has nothing. *)
Lemma get_table_absent_means_exhausted_witness :
  length (fetched (snd (Scenario.get_table (Date 2012 1 31) A None
                                           Scenario.empty_world))) =
  (length (fetched Scenario.empty_world) + 15)%nat.
Proof.
  apply (get_table_absent_means_exhausted count_working_days count_wednesdays
           Scenario.urlopen unit Scenario.read_document
           (Date 2012 1 31) A None Scenario.empty_world).
  vm_compute. reflexivity.
Defined.


(** X12 on the search for 2012-06-15 without a cache directory. *)
Lemma get_table_without_cache_dir_witness :
  dirs (snd (Scenario.get_table (Date 2012 6 15) A None Scenario.empty_world)) =
    dirs Scenario.empty_world /\
  files (snd (Scenario.get_table (Date 2012 6 15) A None Scenario.empty_world)) =
    files Scenario.empty_world.
Proof.
  apply (get_table_without_cache_dir count_working_days count_wednesdays
           Scenario.urlopen unit Scenario.read_document
           (Date 2012 6 15) A None Scenario.empty_world).
  reflexivity.
Defined.


(** X14 and X15 on the search of USD, which table 120 of type 'a' holds. *)
Lemma download_exchange_rate_order_witness :
  let t := mkTable "120/A/NBP/2012" (Date 2012 6 15)
                   (Some "http://rss.nbp.pl/kursy/xml2/2012/a/12a120.xml")
                   ["USD"; "EUR"] in
  let w1 := snd (ScenarioExchange.get_table (Date 2012 6 15) A None
                                            Scenario.empty_world) in
  ScenarioExchange.download_exchange_rate (Date 2012 6 15) "USD" None
                                          Scenario.empty_world =
  (match format_result (list string) string string ScenarioExchange.table_get
                       ScenarioExchange.to_dict ScenarioExchange.strftime
                       t "USD" (Date 2012 6 15) with
   | Return r => Return (Some r)
   | Raise e => Raise e
   end, w1).
Proof.
  intros t w1.
  apply (proj1 (download_exchange_rate_order count_working_days count_wednesdays
                  ScenarioExchange.urlopen (list string)
                  ScenarioExchange.read_document string string
                  ScenarioExchange.table_get ScenarioExchange.to_dict
                  ScenarioExchange.table_true ScenarioExchange.table_contains
                  ScenarioExchange.strftime
                  (Date 2012 6 15) "USD" None Scenario.empty_world) t w1).
  - vm_compute. reflexivity.
  - reflexivity.
Defined.

Lemma download_exchange_rate_sound_witness :
  let r := mkResult "2012-06-13" "024/B/NBP/2012" "2012-06-13"
                    (Some "http://rss.nbp.pl/kursy/xml2/2012/b/12b024.xml") "AFN" in
  let w' := snd (ScenarioExchange.download_exchange_rate (Date 2012 6 13) "AFN" None
                                                         Scenario.empty_world) in
  exists table_type t w0,
    (table_type = A \/ table_type = B) /\
    ScenarioExchange.get_table (Date 2012 6 13) table_type None w0 =
      (Return (Some t), w') /\
    ScenarioExchange.table_true t = true /\
    ScenarioExchange.table_contains t "AFN" = true /\
    date_le (publication_date t) (Date 2012 6 13) /\
    format_result (list string) string string ScenarioExchange.table_get
                  ScenarioExchange.to_dict ScenarioExchange.strftime
                  t "AFN" (Date 2012 6 13) = Return r /\
    r_table_no r = no t /\ r_url r = url t.
Proof.
  intros r w'.
  apply (download_exchange_rate_sound count_working_days count_wednesdays
           ScenarioExchange.urlopen (list string)
           ScenarioExchange.read_document string string
           ScenarioExchange.table_get ScenarioExchange.to_dict
           ScenarioExchange.table_true ScenarioExchange.table_contains
           ScenarioExchange.strftime
           (Date 2012 6 13) "AFN" None Scenario.empty_world w' r).
  vm_compute. reflexivity.
Defined.

Example exchange_rate_falls_back_to_B :
  let r := ScenarioExchange.download_exchange_rate (Date 2012 6 13) "AFN" None
                                                   Scenario.empty_world in
  length (fetched (snd r)) = 16%nat /\
  hd_error (fetched (snd r)) =
    Some ("http://rss.nbp.pl/kursy/xml2/2012/b/12b024.xml", None).
Proof. vm_compute. split; reflexivity. Qed.

(** ** The urls of a walk are all different *)

Lemma str_app_inv_head (s a b : string) : s ++ a = s ++ b -> a = b.
Proof.
  induction s as [|c s IH]; [trivial |].
  rewrite !str_app_cons. intros [= H]. auto.
Qed.

Lemma str_app_inv_tail (a b s : string) : a ++ s = b ++ s -> a = b.
Proof.
  revert b. induction a as [|c a IH]; intros [|c' b] H.
  - reflexivity.
  - apply (f_equal String.length) in H.
    rewrite str_app_nil, str_length_app in H. simpl in H. lia.
  - apply (f_equal String.length) in H.
    rewrite str_app_nil, str_length_app in H. simpl in H. lia.
  - rewrite !str_app_cons in H. injection H as -> H. f_equal. auto.
Qed.

(** Two strings without a separator that are each followed by a separator
    and more are equal when the wholes are equal. *)
Lemma str_split_at_slash (s s' r r' : string) :
  has_slash s = false -> has_slash s' = false ->
  s ++ String "/" r = s' ++ String "/" r' -> s = s' /\ r = r'.
Proof.
  revert s'. induction s as [|c s IH]; intros [|c' s'] Hs Hs' H.
  - rewrite !str_app_nil in H. injection H as ->. auto.
  - rewrite str_app_nil, str_app_cons in H. injection H as <- _.
    simpl in Hs'. discriminate.
  - rewrite str_app_nil, str_app_cons in H. injection H as -> _.
    simpl in Hs. discriminate.
  - rewrite !str_app_cons in H. injection H as -> H.
    simpl in Hs, Hs'. apply orb_false_iff in Hs as [_ Hs].
    apply orb_false_iff in Hs' as [_ Hs'].
    destruct (IH s' Hs Hs' H) as [-> ->]. auto.
Qed.

Lemma uint_string_no_slash (d : Decimal.uint) :
  has_slash (NilEmpty.string_of_uint d) = false.
Proof. induction d; simpl; auto. Qed.

Lemma str_int_no_slash (n : Z) : has_slash (str_int n) = false.
Proof.
  unfold str_int, NilZero.string_of_int, NilZero.string_of_uint.
  destruct (Z.to_int n) as [d|d]; destruct d; simpl;
    auto using uint_string_no_slash.
Qed.

Lemma pos_to_uint_normal (p : positive) :
  Decimal.unorm (Pos.to_uint p) = Pos.to_uint p.
Proof.
  rewrite <- DecimalPos.Unsigned.to_of, DecimalPos.Unsigned.of_to. reflexivity.
Qed.

Lemma pos_to_uint_no_leading_zero (p : positive) (u : Decimal.uint) :
  Pos.to_uint p <> Decimal.D0 u.
Proof.
  intros H. pose proof (pos_to_uint_normal p) as Hn. rewrite H in Hn.
  rewrite unorm_D0 in Hn.
  destruct u as [| u | u | u | u | u | u | u | u | u | u];
    try (apply (DecimalPos.Unsigned.to_uint_nonzero p); rewrite H; reflexivity);
    match type of Hn with
    | Decimal.unorm ?v = _ =>
        assert (Hv : v <> Decimal.Nil) by discriminate;
        pose proof (nb_digits_unorm v Hv) as Hd; rewrite Hn in Hd;
        simpl in Hd; lia
    end.
Qed.

Lemma str_int_inj (n m : Z) : str_int n = str_int m -> n = m.
Proof.
  unfold str_int. intros H.
  apply DecimalZ.to_int_inj.
  assert (Hn : forall z, Z.to_int z <> Decimal.Pos Decimal.Nil /\
                         Z.to_int z <> Decimal.Neg Decimal.Nil).
  { intros [|p|p]; simpl; split; try discriminate;
      intros [= E]; exact (DecimalPos.Unsigned.to_uint_nonnil p E). }
  apply (f_equal NilZero.int_of_string) in H.
  rewrite !NilZero.isi in H by apply Hn. congruence.
Qed.

(** The writing of a number other than 0 does not start with a zero. *)
Lemma str_int_strip (n : Z) : n <> 0 -> strip_zeros (str_int n) = str_int n.
Proof.
  intros Hn. unfold str_int. destruct n as [|p|p]; [congruence | |]; simpl.
  - pose proof (pos_to_uint_no_leading_zero p) as Hz.
    pose proof (DecimalPos.Unsigned.to_uint_nonnil p) as Hnil.
    destruct (Pos.to_uint p); try reflexivity; [congruence | exfalso; eapply Hz; eauto].
  - reflexivity.
Qed.

Lemma strip_zeros_repeat (k : nat) (s : string) :
  strip_zeros (str_repeat "0" k ++ s) = strip_zeros s.
Proof. induction k as [|k IH]; [reflexivity | rewrite <- IH; reflexivity]. Qed.

Lemma str_int_not_empty (n : Z) : str_int n <> "".
Proof.
  unfold str_int. destruct (Z.to_int n) as [d|d]; [| discriminate].
  destruct d; discriminate.
Qed.

Lemma pub_field_inj (n m : Z) : pub_field n = pub_field m -> n = m.
Proof.
  unfold pub_field, rjust. intros H.
  apply (f_equal strip_zeros) in H. rewrite !strip_zeros_repeat in H.
  destruct (Z.eq_dec n 0) as [-> | Hn]; destruct (Z.eq_dec m 0) as [-> | Hm];
    [reflexivity | | |].
  - rewrite (str_int_strip m Hm) in H. simpl in H.
    symmetry in H. now apply str_int_not_empty in H.
  - rewrite (str_int_strip n Hn) in H. simpl in H.
    now apply str_int_not_empty in H.
  - rewrite str_int_strip in H by exact Hn. rewrite str_int_strip in H by exact Hm.
    now apply str_int_inj.
Qed.

Lemma url_path_inj (year year' n n' : Z) (table_type : string) :
  url_path year n table_type = url_path year' n' table_type ->
  year = year' /\ n = n'.
Proof.
  unfold url_path, NBP_CURRENCY_TABLE_URL_PATTERN. intros H.
  apply str_split_at_slash in H as [Hy H]; try apply str_int_no_slash.
  apply str_int_inj in Hy. subst year'. split; [reflexivity |].
  apply str_app_inv_head in H. apply (str_app_inv_head "/") in H.
  apply str_app_inv_head in H. apply str_app_inv_head in H.
  apply str_app_inv_tail in H. now apply pub_field_inj.
Qed.

Lemma nodup_map_injective {T U} (f : T -> U) (l : list T) :
  (forall x y, In x l -> In y l -> f x = f y -> x = y) ->
  List.NoDup l -> List.NoDup (map f l).
Proof.
  intros Hinj Hnd. induction Hnd as [|x l Hx Hnd IH]; simpl; constructor.
  - intros Hin. apply in_map_iff in Hin as (y & Hy & Hin).
    assert (y = x) by (apply Hinj; simpl; auto). subst y. contradiction.
  - apply IH. intros a b Ha Hb. apply Hinj; simpl; auto.
Qed.

(** X17. [build_url] gives different urls for different coordinates of
    one table type, so the urls that [gen_urls] yields are all different:
    no publication is asked for twice in one search. *)
Theorem gen_urls_never_repeats_a_url
    (count_working_days count_wednesdays : date -> Z)
    (year pub_number : Z) (table_type : string) (gen_number : Z)
    (cache_dir : option string) :
  (forall y n y' n' cd cd',
      fst (build_url y n table_type cd) = fst (build_url y' n' table_type cd') ->
      y = y' /\ n = n') /\
  List.NoDup (map fst (gen_items (gen_urls count_working_days count_wednesdays
                                    year pub_number table_type gen_number
                                    cache_dir))).
Proof.
  assert (Hinj : forall y n y' n' cd cd',
             fst (build_url y n table_type cd) = fst (build_url y' n' table_type cd') ->
             y = y' /\ n = n').
  { intros y n y' n' cd cd'. unfold build_url. cbn [fst]. intros H.
    apply str_app_inv_head in H. now apply url_path_inj in H. }
  split; [exact Hinj |].
  unfold gen_urls. rewrite gen_urls_loop_coords, gen_items_map, map_map.
  apply nodup_map_injective.
  - intros [y n] [y' n'] _ _ H. cbn [fst snd] in H.
    apply Hinj in H as [-> ->]. reflexivity.
  - apply strongly_sorted_earlier_nodup, sorted_earlier_strongly, coords_steps_back.
Qed.
